(** * Cost model of the AzureRM state-storage backend

    Shallow embedding of [costing/azurerm_backend_costs.py] (and of the
    driver values of [costing/runner.py]).

    Numbers.  Python [int] values are modelled as [Z].  Python [float]
    values are modelled as exact rationals [Q]: every arithmetic operator
    is the exact operation, and binary64 rounding, overflow, infinities and
    NaN are outside the model.  Equality of two computed amounts is
    therefore rational equality [==] (Python's [==] on numbers), unless the
    two sides are literally the same expression.  Where the exact reading
    and the program part ways, the module [Binary64] replays the code in
    the program's own arithmetic.

    Exceptions.  The only operators of the source that can raise in this
    model are true division by zero and a zero base raised to a negative
    power; both raise [ZeroDivisionError].  Fallible code lives in the
    [result] monad below.

    Names.  Functions, dataclass fields and dictionary keys keep their
    Python names.  A local variable whose name is also a dictionary key of
    the breakdown is renamed, since the key is a record projection here:
    [avg_state_size_gb] is [avg_gb], [storage_cost_year] is [storage_cost],
    [per_account_size_gb] is [size_gb] and the [backup] dictionary is [bk].
    The body of the [for] loop is [estimate_year], with its logging and
    backup blocks as [estimate_logging] and [estimate_backup].

    Backup modes.  [BackupMode] is the closed three-value type of the
    annotation; strings outside the [Literal] are not modelled. *)

From Stdlib Require Import ZArith QArith Qround Qpower Qabs Lia Lqa List.
From Stdlib Require Import Floats.
From stdpp Require Import gmap strings list.
Import ListNotations.

(* A decimal float literal denotes the nearest binary64 value, as in Python. *)
#[local] Set Warnings "-inexact-float".

Local Open Scope Z_scope.
Local Open Scope Q_scope.

(** ** Python exceptions and the result monad *)

Inductive PyError : Type :=
| ZeroDivisionError.

Inductive result (A : Type) : Type :=
| Ok (a : A)
| Raise (e : PyError).

Arguments Ok {A} a.
Arguments Raise {A} e.

(** Sequencing: an exception raised by the first computation propagates. *)
#[global] Instance result_ret : MRet result := fun A a => Ok a.

#[global] Instance result_bind : MBind result := fun A B k m =>
  match m with
  | Ok a => k a
  | Raise e => Raise e
  end.

(** ** Python numeric primitives, exact-arithmetic reading *)

(** [x / y] on floats (or an int and a float). *)
Definition py_truediv (x y : Q) : result Q :=
  if Qeq_bool y 0 then Raise ZeroDivisionError else Ok (x / y).

(** [x ** n] for a float [x] and an int [n]. *)
Definition py_pow (x : Q) (n : Z) : result Q :=
  if Qeq_bool x 0 && (n <? 0)%Z then Raise ZeroDivisionError else Ok (x ^ n).

(** [x < y]. *)
Definition py_lt (x y : Q) : bool :=
  match x ?= y with
  | Lt => true
  | _ => false
  end.

(** [math.ceil(x)]. *)
Definition math_ceil (x : Q) : Z := Qceiling x.

(** [int(x)]: truncation toward zero. *)
Definition py_int (x : Q) : Z :=
  if py_lt x 0 then Qceiling x else Qfloor x.

(** Nearest integer, ties to the even neighbour. *)
Definition round_half_even (x : Q) : Z :=
  let f := Qfloor x in
  match (x - inject_Z f ?= 1 # 2)%Q with
  | Lt => f
  | Gt => (f + 1)%Z
  | Eq => if Z.even f then f else (f + 1)%Z
  end.

(** [round(x, ndigits)] for a non-negative [ndigits]. *)
Definition py_round (x : Q) (ndigits : Z) : Q :=
  inject_Z (round_half_even (x * 10 ^ ndigits)) / 10 ^ ndigits.

(** [sum(xs)]: left-to-right accumulation starting from [0]. *)
Definition py_sum (xs : list Q) : Q := fold_left Qplus xs 0.

(** [range(n)]: empty when [n <= 0]. *)
Definition py_range (n : Z) : list Z := map Z.of_nat (seq 0 (Z.to_nat n)).

(** ** Data model *)

(** [BackupMode = Literal["none", "blobs_operational", "blobs_vaulted"]]. *)
Inductive BackupMode : Type :=
| none
| blobs_operational
| blobs_vaulted.

Definition BackupMode_eqb (a b : BackupMode) : bool :=
  match a, b with
  | none, none => true
  | blobs_operational, blobs_operational => true
  | blobs_vaulted, blobs_vaulted => true
  | _, _ => false
  end.

(** The fields of the [Inputs] dataclass.  [Tiers] is the type of the
    [blob_vaulted_tiers] field: [option (gmap string Q)] for the keyword
    arguments handed to the generated [__init__] (the default is [None]),
    and [gmap string Q] once [__post_init__] has run.  [envs_per_client]
    is annotated [int] but the driver passes [3.5], so it is a rational. *)
Record InputsFields (Tiers : Type) : Type := {
  num_clients : Z;
  envs_per_client : Q;
  avg_state_size_mb : Q;
  deployments_per_env_per_year : Z;
  pr_runs_per_client_per_year : Z;
  num_regions : Z;
  storage_accounts_per_region : Z;
  log_bytes_per_txn : Q;
  backup_mode : BackupMode;
  blob_vaulted_pi_price_per_month : Q;
  blob_vaulted_tiers : Tiers;
  blob_vaulted_write_per_10k_price : Q;
  blob_vaulted_write_ops_per_month_per_account : Q;
  backup_vault_storage_gb_per_account_month : Q;
  backup_vault_storage_price_per_gb_month : Q;
  growth_rate_clients : Q;
  years : Z;
  hours_per_month : Q
}.

Arguments num_clients {Tiers} _.
Arguments envs_per_client {Tiers} _.
Arguments avg_state_size_mb {Tiers} _.
Arguments deployments_per_env_per_year {Tiers} _.
Arguments pr_runs_per_client_per_year {Tiers} _.
Arguments num_regions {Tiers} _.
Arguments storage_accounts_per_region {Tiers} _.
Arguments log_bytes_per_txn {Tiers} _.
Arguments backup_mode {Tiers} _.
Arguments blob_vaulted_pi_price_per_month {Tiers} _.
Arguments blob_vaulted_tiers {Tiers} _.
Arguments blob_vaulted_write_per_10k_price {Tiers} _.
Arguments blob_vaulted_write_ops_per_month_per_account {Tiers} _.
Arguments backup_vault_storage_gb_per_account_month {Tiers} _.
Arguments backup_vault_storage_price_per_gb_month {Tiers} _.
Arguments growth_rate_clients {Tiers} _.
Arguments years {Tiers} _.
Arguments hours_per_month {Tiers} _.

(** Keyword arguments of [Inputs(...)]. *)
Abbreviation InputsArgs := (InputsFields (option (gmap string Q))).
(** A constructed [Inputs] instance. *)
Abbreviation Inputs := (InputsFields (gmap string Q)).

(** The table installed by [__post_init__] when none is given. *)
Definition default_tiers : gmap string Q :=
  <["<10GB"%string := 0.10]>
    (<["10-100GB"%string := 0.30]>
       (<["100GB-1TB"%string := 0.60]>
          (<[">=1TB"%string := 1.00]> ∅))).

(** Assignment to [self.blob_vaulted_tiers]; every other field is kept. *)
Definition set_blob_vaulted_tiers {T U : Type} (self : InputsFields T)
    (tiers : U) : InputsFields U :=
  {| num_clients := num_clients self;
     envs_per_client := envs_per_client self;
     avg_state_size_mb := avg_state_size_mb self;
     deployments_per_env_per_year := deployments_per_env_per_year self;
     pr_runs_per_client_per_year := pr_runs_per_client_per_year self;
     num_regions := num_regions self;
     storage_accounts_per_region := storage_accounts_per_region self;
     log_bytes_per_txn := log_bytes_per_txn self;
     backup_mode := backup_mode self;
     blob_vaulted_pi_price_per_month := blob_vaulted_pi_price_per_month self;
     blob_vaulted_tiers := tiers;
     blob_vaulted_write_per_10k_price := blob_vaulted_write_per_10k_price self;
     blob_vaulted_write_ops_per_month_per_account :=
       blob_vaulted_write_ops_per_month_per_account self;
     backup_vault_storage_gb_per_account_month :=
       backup_vault_storage_gb_per_account_month self;
     backup_vault_storage_price_per_gb_month :=
       backup_vault_storage_price_per_gb_month self;
     growth_rate_clients := growth_rate_clients self;
     years := years self;
     hours_per_month := hours_per_month self |}.

(** [Inputs.__post_init__], run by the generated constructor on the freshly
    assigned fields: its only statement replaces a [None] tier table by a
    fresh default table. *)
Definition __post_init__ (self : InputsArgs) : result Inputs :=
  match blob_vaulted_tiers self with
  | None => Ok (set_blob_vaulted_tiers self default_tiers)
  | Some tiers => Ok (set_blob_vaulted_tiers self tiers)
  end.

Record Rates : Type := {
  storage_gb_month_price : Q;
  read_txn_per_10k_price : Q;
  write_txn_per_10k_price : Q;
  private_endpoint_hour_price : Q;
  private_link_data_price_per_gb : Q;
  log_ingestion_price_per_gb : Q
}.

(** The nested dictionaries of one year's breakdown, as records. *)
Record Transactions : Type := {
  reads : Z;
  writes : Z;
  total : Z;
  read_cost : Q;
  write_cost : Q;
  total_txn_cost : Q
}.

Record PrivateLink : Type := {
  endpoint_hours : Q;
  data_processed_gb : Q;
  endpoint_hour_cost : Q;
  data_cost : Q;
  total_pl_cost : Q
}.

Record Logging : Type := {
  logging_log_bytes_per_txn : Q;
  gb_per_account_per_month : Q;
  ingestion_gb_year : Q;
  ingestion_cost_year : Q
}.

Record Backup : Type := {
  mode : BackupMode;
  per_account_size_gb : Q;
  pi_monthly_fee_per_account : Q;
  instance_cost_year : Q;
  vault_storage_cost_year : Q;
  backup_write_ops_year : Q;
  backup_write_ops_cost_year : Q
}.

Record YearBreakdown : Type := {
  year_index : Z;
  clients : Z;
  environments_global : Q;
  storage_accounts : Z;
  avg_state_size_gb : Q;
  storage_gb : Q;
  transactions : Transactions;
  private_link : PrivateLink;
  logging : Logging;
  backup : Backup;
  storage_cost_year : Q;
  year_total_cost : Q
}.

Record Result : Type := {
  by_year : list YearBreakdown;
  grand_total : Q
}.

(** ** The cost engine *)

(** Item assignment on the [backup] dictionary. *)
Definition set_per_account_size_gb (b : Backup) (v : Q) : Backup :=
  {| mode := mode b;
     per_account_size_gb := v;
     pi_monthly_fee_per_account := pi_monthly_fee_per_account b;
     instance_cost_year := instance_cost_year b;
     vault_storage_cost_year := vault_storage_cost_year b;
     backup_write_ops_year := backup_write_ops_year b;
     backup_write_ops_cost_year := backup_write_ops_cost_year b |}.

Definition set_pi_monthly_fee_per_account (b : Backup) (v : Q) : Backup :=
  {| mode := mode b;
     per_account_size_gb := per_account_size_gb b;
     pi_monthly_fee_per_account := v;
     instance_cost_year := instance_cost_year b;
     vault_storage_cost_year := vault_storage_cost_year b;
     backup_write_ops_year := backup_write_ops_year b;
     backup_write_ops_cost_year := backup_write_ops_cost_year b |}.

Definition set_instance_cost_year (b : Backup) (v : Q) : Backup :=
  {| mode := mode b;
     per_account_size_gb := per_account_size_gb b;
     pi_monthly_fee_per_account := pi_monthly_fee_per_account b;
     instance_cost_year := v;
     vault_storage_cost_year := vault_storage_cost_year b;
     backup_write_ops_year := backup_write_ops_year b;
     backup_write_ops_cost_year := backup_write_ops_cost_year b |}.

Definition set_vault_storage_cost_year (b : Backup) (v : Q) : Backup :=
  {| mode := mode b;
     per_account_size_gb := per_account_size_gb b;
     pi_monthly_fee_per_account := pi_monthly_fee_per_account b;
     instance_cost_year := instance_cost_year b;
     vault_storage_cost_year := v;
     backup_write_ops_year := backup_write_ops_year b;
     backup_write_ops_cost_year := backup_write_ops_cost_year b |}.

Definition set_backup_write_ops_year (b : Backup) (v : Q) : Backup :=
  {| mode := mode b;
     per_account_size_gb := per_account_size_gb b;
     pi_monthly_fee_per_account := pi_monthly_fee_per_account b;
     instance_cost_year := instance_cost_year b;
     vault_storage_cost_year := vault_storage_cost_year b;
     backup_write_ops_year := v;
     backup_write_ops_cost_year := backup_write_ops_cost_year b |}.

Definition set_backup_write_ops_cost_year (b : Backup) (v : Q) : Backup :=
  {| mode := mode b;
     per_account_size_gb := per_account_size_gb b;
     pi_monthly_fee_per_account := pi_monthly_fee_per_account b;
     instance_cost_year := instance_cost_year b;
     vault_storage_cost_year := vault_storage_cost_year b;
     backup_write_ops_year := backup_write_ops_year b;
     backup_write_ops_cost_year := v |}.

(** [d.get(key, dflt)]. *)
Definition dict_get (d : gmap string Q) (key : string) (dflt : Q) : Q :=
  default dflt (d !! key).

(** Ceiling of clients after compounding growth for [year_index] (0-based). *)
Definition _clients_in_year (base_clients : Z) (growth_rate : Q)
    (year_index : Z) : result Z :=
  p ← py_pow (1 + growth_rate) year_index;
  mret (math_ceil (inject_Z base_clients * p)).

(** Protected instance monthly fee per storage account for Blobs vaulted
    backup. *)
Definition _blobs_vaulted_pi_monthly_fee (per_account_size_gb base_monthly : Q)
    (tiers : gmap string Q) : Q :=
  if py_lt per_account_size_gb 10 then
    base_monthly * dict_get tiers "<10GB" 0
  else if py_lt per_account_size_gb 100 then
    base_monthly * dict_get tiers "10-100GB" 0
  else if py_lt per_account_size_gb 1024 then
    base_monthly * dict_get tiers "100GB-1TB" 0
  else
    base_monthly * dict_get tiers ">=1TB" 1.

(** The backup block of the loop body: the [backup] dictionary starts with
    every amount at zero and is filled in under the guard
    [backup_mode != "none" and total_accounts > 0]. *)
Definition estimate_backup (inputs : Inputs) (total_accounts : Z)
    (total_state_gb : Q) : result Backup :=
  let backup0 :=
    {| mode := backup_mode inputs;
       per_account_size_gb := 0;
       pi_monthly_fee_per_account := 0;
       instance_cost_year := 0;
       vault_storage_cost_year := 0;
       backup_write_ops_year := 0;
       backup_write_ops_cost_year := 0 |} in
  if negb (BackupMode_eqb (backup_mode inputs) none) && (total_accounts >? 0)%Z
  then
    size_gb ← (if (total_accounts >? 0)%Z
               then py_truediv total_state_gb (inject_Z total_accounts)
               else mret 0);
    let backup1 := set_per_account_size_gb backup0 size_gb in
    if BackupMode_eqb (backup_mode inputs) blobs_vaulted then
      let pi_monthly :=
        _blobs_vaulted_pi_monthly_fee size_gb
          (blob_vaulted_pi_price_per_month inputs)
          (blob_vaulted_tiers inputs) in
      let backup2 := set_pi_monthly_fee_per_account backup1 pi_monthly in
      let backup3 :=
        set_instance_cost_year backup2
          (pi_monthly * inject_Z total_accounts * 12) in
      let backup4 :=
        set_vault_storage_cost_year backup3
          (backup_vault_storage_gb_per_account_month inputs
           * backup_vault_storage_price_per_gb_month inputs
           * inject_Z total_accounts * 12) in
      let yearly_backup_writes :=
        blob_vaulted_write_ops_per_month_per_account inputs
        * inject_Z total_accounts * 12 in
      let backup5 := set_backup_write_ops_year backup4 yearly_backup_writes in
      w ← py_truediv yearly_backup_writes 10000;
      mret (set_backup_write_ops_cost_year backup5
              (w * blob_vaulted_write_per_10k_price inputs))
    else mret backup1
  else mret backup0.

(** The log-ingestion block of the loop body; returns
    [(log_gb_per_account_per_month, log_ingestion_gb_year)]. *)
Definition estimate_logging (inputs : Inputs) (total_accounts : Z)
    (total_txns : Q) : result (Q * Q) :=
  if (total_accounts >? 0)%Z then
    txns_per_month_all ← py_truediv total_txns 12;
    txns_per_month_per_account ←
      py_truediv txns_per_month_all (inject_Z total_accounts);
    gib ← py_pow 1024 3;
    log_gb_per_account_per_month ←
      py_truediv (txns_per_month_per_account * log_bytes_per_txn inputs) gib;
    let log_ingestion_gb_year :=
      inject_Z total_accounts * log_gb_per_account_per_month * 12 in
    mret (log_gb_per_account_per_month, log_ingestion_gb_year)
  else mret (0, 0).

(** One iteration of [for y in range(inputs.years)]: everything from the
    client projection to the assembled breakdown with its
    [year_total_cost]. *)
Definition estimate_year (inputs : Inputs) (rates : Rates)
    (total_accounts : Z) (avg_gb : Q) (y : Z) : result YearBreakdown :=
  clients_y ← _clients_in_year (num_clients inputs) (growth_rate_clients inputs) y;
  (* environments (global) *)
  let total_envs := inject_Z clients_y * envs_per_client inputs in
  (* storage GB-month *)
  let total_state_gb := total_envs * avg_gb in
  let storage_cost := total_state_gb * storage_gb_month_price rates * 12 in
  (* transactions *)
  let reads_per_env :=
    (3 * deployments_per_env_per_year inputs
     + pr_runs_per_client_per_year inputs)%Z in
  let writes_per_env := (1 * deployments_per_env_per_year inputs)%Z in
  let total_reads := inject_Z reads_per_env * total_envs in
  let total_writes := inject_Z writes_per_env * total_envs in
  let total_txns := total_reads + total_writes in
  r ← py_truediv total_reads 10000;
  let read_cost_year := r * read_txn_per_10k_price rates in
  w ← py_truediv total_writes 10000;
  let write_cost_year := w * write_txn_per_10k_price rates in
  let txn_cost_year := read_cost_year + write_cost_year in
  (* private link / endpoint, fixed by account count *)
  let pe_hours_year := inject_Z total_accounts * hours_per_month inputs * 12 in
  let pe_hour_cost_year := pe_hours_year * private_endpoint_hour_price rates in
  let data_processed_gb_year := total_txns * avg_gb in
  let pe_data_cost_year :=
    data_processed_gb_year * private_link_data_price_per_gb rates in
  let private_link_cost_year := pe_hour_cost_year + pe_data_cost_year in
  (* log analytics ingestion, derived from transactions *)
  '(log_gb_per_account_per_month, log_ingestion_gb_year) ←
    estimate_logging inputs total_accounts total_txns;
  let log_ingestion_cost_year :=
    log_ingestion_gb_year * log_ingestion_price_per_gb rates in
  (* backup *)
  bk ← estimate_backup inputs total_accounts total_state_gb;
  (* year total *)
  let year_total :=
    storage_cost + txn_cost_year + private_link_cost_year
    + log_ingestion_cost_year in
  let year_total :=
    if BackupMode_eqb (backup_mode inputs) blobs_vaulted then
      year_total
      + (instance_cost_year bk + vault_storage_cost_year bk
         + backup_write_ops_cost_year bk)
    else year_total in
  (* year assembly *)
  mret {| year_index := (y + 1)%Z;
          clients := clients_y;
          environments_global := total_envs;
          storage_accounts := total_accounts;
          avg_state_size_gb := py_round avg_gb 6;
          storage_gb := py_round total_state_gb 6;
          transactions :=
            {| reads := py_int total_reads;
               writes := py_int total_writes;
               total := py_int total_txns;
               read_cost := read_cost_year;
               write_cost := write_cost_year;
               total_txn_cost := txn_cost_year |};
          private_link :=
            {| endpoint_hours := pe_hours_year;
               data_processed_gb := data_processed_gb_year;
               endpoint_hour_cost := pe_hour_cost_year;
               data_cost := pe_data_cost_year;
               total_pl_cost := private_link_cost_year |};
          logging :=
            {| logging_log_bytes_per_txn := log_bytes_per_txn inputs;
               gb_per_account_per_month := log_gb_per_account_per_month;
               ingestion_gb_year := log_ingestion_gb_year;
               ingestion_cost_year := log_ingestion_cost_year |};
          backup := bk;
          storage_cost_year := storage_cost;
          year_total_cost := year_total |}.

(** The [for] loop: iterations run in order, each appending its breakdown;
    an exception raised by an iteration aborts the loop. *)
Fixpoint estimate_loop (body : Z -> result YearBreakdown) (ys : list Z)
    (breakdown_by_year : list YearBreakdown) : result (list YearBreakdown) :=
  match ys with
  | [] => mret breakdown_by_year
  | y :: ys' =>
      year_breakdown ← body y;
      estimate_loop body ys' (breakdown_by_year ++ [year_breakdown])
  end.

(** Estimate yearly cost breakdown for Terraform AzureRM backends across a
    multi-region setup. *)
Definition estimate_backend_costs (inputs : Inputs) (rates : Rates)
    : result Result :=
  let total_accounts :=
    (num_regions inputs * storage_accounts_per_region inputs)%Z in
  avg_gb ← py_truediv (avg_state_size_mb inputs) 1024;
  breakdown_by_year ←
    estimate_loop (estimate_year inputs rates total_accounts avg_gb)
      (py_range (years inputs)) [];
  let total_cost := py_sum (map year_total_cost breakdown_by_year) in
  mret {| by_year := breakdown_by_year; grand_total := total_cost |}.

(** ** The driver's values ([runner.py]) *)

Definition runner_rates : Rates :=
  {| storage_gb_month_price := 0.018;
     read_txn_per_10k_price := 0.004;
     write_txn_per_10k_price := 0.05;
     private_endpoint_hour_price := 0.01;
     private_link_data_price_per_gb := 0.01;
     log_ingestion_price_per_gb := 2.76 |}.

Definition runner_args : InputsArgs :=
  {| num_clients := 100;
     envs_per_client := 3.5;
     avg_state_size_mb := 1;
     deployments_per_env_per_year := 200;
     pr_runs_per_client_per_year := 16;
     num_regions := 3;
     storage_accounts_per_region := 2;
     log_bytes_per_txn := 1024;
     backup_mode := blobs_vaulted;
     blob_vaulted_pi_price_per_month := 8;
     blob_vaulted_tiers := None;
     blob_vaulted_write_per_10k_price := 0.057;
     blob_vaulted_write_ops_per_month_per_account := 5000;
     backup_vault_storage_gb_per_account_month := 10;
     backup_vault_storage_price_per_gb_month := 0.023;
     growth_rate_clients := 0.25;
     years := 5;
     hours_per_month := 730 |}.

(** The driver's [Inputs] instance, as constructed. *)
Definition runner_inputs : Inputs :=
  set_blob_vaulted_tiers runner_args default_tiers.

(** The same inputs deployed over other region and account counts. *)
Definition set_accounts (inputs : Inputs) (regions per_region : Z) : Inputs :=
  {| num_clients := num_clients inputs;
     envs_per_client := envs_per_client inputs;
     avg_state_size_mb := avg_state_size_mb inputs;
     deployments_per_env_per_year := deployments_per_env_per_year inputs;
     pr_runs_per_client_per_year := pr_runs_per_client_per_year inputs;
     num_regions := regions;
     storage_accounts_per_region := per_region;
     log_bytes_per_txn := log_bytes_per_txn inputs;
     backup_mode := backup_mode inputs;
     blob_vaulted_pi_price_per_month := blob_vaulted_pi_price_per_month inputs;
     blob_vaulted_tiers := blob_vaulted_tiers inputs;
     blob_vaulted_write_per_10k_price := blob_vaulted_write_per_10k_price inputs;
     blob_vaulted_write_ops_per_month_per_account :=
       blob_vaulted_write_ops_per_month_per_account inputs;
     backup_vault_storage_gb_per_account_month :=
       backup_vault_storage_gb_per_account_month inputs;
     backup_vault_storage_price_per_gb_month :=
       backup_vault_storage_price_per_gb_month inputs;
     growth_rate_clients := growth_rate_clients inputs;
     years := years inputs;
     hours_per_month := hours_per_month inputs |}.

(** One client with 3.5 environments, one deployment per environment and
    no PR run: the read total is [3 * 3.5 = 10.5]. *)
Definition fractional_inputs : Inputs :=
  {| num_clients := 1;
     envs_per_client := 3.5;
     avg_state_size_mb := 1;
     deployments_per_env_per_year := 1;
     pr_runs_per_client_per_year := 0;
     num_regions := 3;
     storage_accounts_per_region := 2;
     log_bytes_per_txn := 1024;
     backup_mode := blobs_operational;
     blob_vaulted_pi_price_per_month := 0;
     blob_vaulted_tiers := default_tiers;
     blob_vaulted_write_per_10k_price := 0;
     blob_vaulted_write_ops_per_month_per_account := 0;
     backup_vault_storage_gb_per_account_month := 0;
     backup_vault_storage_price_per_gb_month := 0;
     growth_rate_clients := 0;
     years := 1;
     hours_per_month := 730 |}.

(** Keyword arguments with a negative client count, a growth rate below
    -1 and an empty tier table. *)
Definition invalid_args : InputsArgs :=
  {| num_clients := -100;
     envs_per_client := 3.5;
     avg_state_size_mb := 1;
     deployments_per_env_per_year := 200;
     pr_runs_per_client_per_year := 16;
     num_regions := 3;
     storage_accounts_per_region := 2;
     log_bytes_per_txn := 1024;
     backup_mode := blobs_vaulted;
     blob_vaulted_pi_price_per_month := 8;
     blob_vaulted_tiers := Some ∅;
     blob_vaulted_write_per_10k_price := 0.057;
     blob_vaulted_write_ops_per_month_per_account := 5000;
     backup_vault_storage_gb_per_account_month := 10;
     backup_vault_storage_price_per_gb_month := 0.023;
     growth_rate_clients := -2;
     years := 2;
     hours_per_month := 730 |}.

(** The driver's arguments with a horizon of zero years. *)
Definition zero_years_args : InputsArgs :=
  {| num_clients := 100;
     envs_per_client := 3.5;
     avg_state_size_mb := 1;
     deployments_per_env_per_year := 200;
     pr_runs_per_client_per_year := 16;
     num_regions := 3;
     storage_accounts_per_region := 2;
     log_bytes_per_txn := 1024;
     backup_mode := blobs_vaulted;
     blob_vaulted_pi_price_per_month := 8;
     blob_vaulted_tiers := None;
     blob_vaulted_write_per_10k_price := 0.057;
     blob_vaulted_write_ops_per_month_per_account := 5000;
     backup_vault_storage_gb_per_account_month := 10;
     backup_vault_storage_price_per_gb_month := 0.023;
     growth_rate_clients := 0.25;
     years := 0;
     hours_per_month := 730 |}.


(** ** Dataclass defaults and the driver's summary *)

(** [Inputs(num_clients, envs_per_client, avg_state_size_mb,
    deployments_per_env_per_year, pr_runs_per_client_per_year, num_regions,
    storage_accounts_per_region)]: the keyword arguments the generated
    constructor sees when only the seven required fields are passed, every
    other field taking the default of its declaration. *)
Definition Inputs_defaults (clients0 : Z) (envs : Q) (size_mb : Q)
    (deployments pr_runs regions per_region : Z) : InputsArgs :=
  {| num_clients := clients0;
     envs_per_client := envs;
     avg_state_size_mb := size_mb;
     deployments_per_env_per_year := deployments;
     pr_runs_per_client_per_year := pr_runs;
     num_regions := regions;
     storage_accounts_per_region := per_region;
     log_bytes_per_txn := 1024.0;
     backup_mode := blobs_operational;
     blob_vaulted_pi_price_per_month := 0;
     blob_vaulted_tiers := None;
     blob_vaulted_write_per_10k_price := 0;
     blob_vaulted_write_ops_per_month_per_account := 0;
     backup_vault_storage_gb_per_account_month := 0;
     backup_vault_storage_price_per_gb_month := 0;
     growth_rate_clients := 0;
     years := 1;
     hours_per_month := 730.0 |}.

(** The driver's quick summary:
    [[(y["year_index"], y["year_total_cost"]) for y in result["by_year"]]]. *)
Definition runner_year_totals (result : Result) : list (Z * Q) :=
  map (fun y => (year_index y, year_total_cost y)) (by_year result).

(** The same inputs under another backup mode. *)
Definition set_backup_mode (inputs : Inputs) (m : BackupMode) : Inputs :=
  {| num_clients := num_clients inputs;
     envs_per_client := envs_per_client inputs;
     avg_state_size_mb := avg_state_size_mb inputs;
     deployments_per_env_per_year := deployments_per_env_per_year inputs;
     pr_runs_per_client_per_year := pr_runs_per_client_per_year inputs;
     num_regions := num_regions inputs;
     storage_accounts_per_region := storage_accounts_per_region inputs;
     log_bytes_per_txn := log_bytes_per_txn inputs;
     backup_mode := m;
     blob_vaulted_pi_price_per_month := blob_vaulted_pi_price_per_month inputs;
     blob_vaulted_tiers := blob_vaulted_tiers inputs;
     blob_vaulted_write_per_10k_price := blob_vaulted_write_per_10k_price inputs;
     blob_vaulted_write_ops_per_month_per_account :=
       blob_vaulted_write_ops_per_month_per_account inputs;
     backup_vault_storage_gb_per_account_month :=
       backup_vault_storage_gb_per_account_month inputs;
     backup_vault_storage_price_per_gb_month :=
       backup_vault_storage_price_per_gb_month inputs;
     growth_rate_clients := growth_rate_clients inputs;
     years := years inputs;
     hours_per_month := hours_per_month inputs |}.

(** The same inputs over another planning horizon. *)
Definition set_years (inputs : Inputs) (n : Z) : Inputs :=
  {| num_clients := num_clients inputs;
     envs_per_client := envs_per_client inputs;
     avg_state_size_mb := avg_state_size_mb inputs;
     deployments_per_env_per_year := deployments_per_env_per_year inputs;
     pr_runs_per_client_per_year := pr_runs_per_client_per_year inputs;
     num_regions := num_regions inputs;
     storage_accounts_per_region := storage_accounts_per_region inputs;
     log_bytes_per_txn := log_bytes_per_txn inputs;
     backup_mode := backup_mode inputs;
     blob_vaulted_pi_price_per_month := blob_vaulted_pi_price_per_month inputs;
     blob_vaulted_tiers := blob_vaulted_tiers inputs;
     blob_vaulted_write_per_10k_price := blob_vaulted_write_per_10k_price inputs;
     blob_vaulted_write_ops_per_month_per_account :=
       blob_vaulted_write_ops_per_month_per_account inputs;
     backup_vault_storage_gb_per_account_month :=
       backup_vault_storage_gb_per_account_month inputs;
     backup_vault_storage_price_per_gb_month :=
       backup_vault_storage_price_per_gb_month inputs;
     growth_rate_clients := growth_rate_clients inputs;
     years := n;
     hours_per_month := hours_per_month inputs |}.

(** Inputs whose counts, sizes and prices are all non-negative and whose
    growth rate is at least -1. *)
Record nonneg_inputs (inputs : Inputs) : Prop := {
  nn_num_clients : (0 <= num_clients inputs)%Z;
  nn_envs_per_client : 0 <= envs_per_client inputs;
  nn_avg_state_size_mb : 0 <= avg_state_size_mb inputs;
  nn_deployments : (0 <= deployments_per_env_per_year inputs)%Z;
  nn_pr_runs : (0 <= pr_runs_per_client_per_year inputs)%Z;
  nn_num_regions : (0 <= num_regions inputs)%Z;
  nn_accounts_per_region : (0 <= storage_accounts_per_region inputs)%Z;
  nn_log_bytes : 0 <= log_bytes_per_txn inputs;
  nn_pi_price : 0 <= blob_vaulted_pi_price_per_month inputs;
  nn_tiers :
    forall key fraction,
      blob_vaulted_tiers inputs !! key = Some fraction -> 0 <= fraction;
  nn_write_price : 0 <= blob_vaulted_write_per_10k_price inputs;
  nn_write_ops : 0 <= blob_vaulted_write_ops_per_month_per_account inputs;
  nn_vault_gb : 0 <= backup_vault_storage_gb_per_account_month inputs;
  nn_vault_price : 0 <= backup_vault_storage_price_per_gb_month inputs;
  nn_growth : -1 <= growth_rate_clients inputs;
  nn_hours : 0 <= hours_per_month inputs
}.

(** Unit prices that are all non-negative. *)
Record nonneg_rates (rates : Rates) : Prop := {
  nn_storage_price : 0 <= storage_gb_month_price rates;
  nn_read_price : 0 <= read_txn_per_10k_price rates;
  nn_write_txn_price : 0 <= write_txn_per_10k_price rates;
  nn_endpoint_price : 0 <= private_endpoint_hour_price rates;
  nn_data_price : 0 <= private_link_data_price_per_gb rates;
  nn_log_price : 0 <= log_ingestion_price_per_gb rates
}.

(** Two derived quantities, used to state how a year total depends on the
    environment count when no backup fee is charged: the yearly cost of the
    private endpoints, and the yearly cost caused by one environment
    (storage, reads, writes, private-link data and log ingestion). *)
Definition fixed_endpoint_cost (inputs : Inputs) (rates : Rates) : Q :=
  inject_Z (num_regions inputs * storage_accounts_per_region inputs)
  * hours_per_month inputs * 12 * private_endpoint_hour_price rates.

Definition cost_per_environment (inputs : Inputs) (rates : Rates) : Q :=
  let avg := avg_state_size_mb inputs / 1024 in
  let reads_per_env :=
    inject_Z (3 * deployments_per_env_per_year inputs
              + pr_runs_per_client_per_year inputs) in
  let writes_per_env := inject_Z (deployments_per_env_per_year inputs) in
  let log_gb_per_txn :=
    if (num_regions inputs * storage_accounts_per_region inputs >? 0)%Z
    then log_bytes_per_txn inputs / 1024 ^ 3
    else 0 in
  avg * storage_gb_month_price rates * 12
  + reads_per_env / 10000 * read_txn_per_10k_price rates
  + writes_per_env / 10000 * write_txn_per_10k_price rates
  + (reads_per_env + writes_per_env) * avg * private_link_data_price_per_gb rates
  + (reads_per_env + writes_per_env) * log_gb_per_txn
    * log_ingestion_price_per_gb rates.

(** ** Names for the quantities computed by the entry point

    These restate, as functions of the inputs, the values that
    [estimate_backend_costs] binds to its local variables. *)

(** The fixed account count and the per-environment size in GB computed
    before the loop. *)
Definition total_accounts_of (inputs : Inputs) : Z :=
  (num_regions inputs * storage_accounts_per_region inputs)%Z.

Definition avg_gb_of (inputs : Inputs) : Q := avg_state_size_mb inputs / 1024.

(** The locals of the loop body, as functions of the inputs. *)
Section YearLocals.
Variables (inputs : Inputs) (avg_gb : Q) (y : Z).

Definition clients_of : Z :=
  Qceiling (inject_Z (num_clients inputs) * (1 + growth_rate_clients inputs) ^ y).
Definition total_envs_of : Q := inject_Z clients_of * envs_per_client inputs.
Definition total_state_gb_of : Q := total_envs_of * avg_gb.
Definition reads_per_env_of : Z :=
  (3 * deployments_per_env_per_year inputs + pr_runs_per_client_per_year inputs)%Z.
Definition writes_per_env_of : Z := (1 * deployments_per_env_per_year inputs)%Z.
Definition total_reads_of : Q := inject_Z reads_per_env_of * total_envs_of.
Definition total_writes_of : Q := inject_Z writes_per_env_of * total_envs_of.
Definition total_txns_of : Q := total_reads_of + total_writes_of.
End YearLocals.

(** The mathematical sum of a list of amounts. *)
Fixpoint sum_Q (xs : list Q) : Q :=
  match xs with
  | [] => 0
  | x :: xs' => x + sum_Q xs'
  end.

(** The [backup] dictionary as initialised at the top of the block. *)
Definition backup_zero (m : BackupMode) : Backup :=
  {| mode := m;
     per_account_size_gb := 0;
     pi_monthly_fee_per_account := 0;
     instance_cost_year := 0;
     vault_storage_cost_year := 0;
     backup_write_ops_year := 0;
     backup_write_ops_cost_year := 0 |}.

(** What one iteration assigns to each key of its breakdown [yb], given the
    results [lg] of the logging block and [bk] of the backup block. *)
Record year_spec (inputs : Inputs) (rates : Rates) (total_accounts : Z)
    (avg_gb : Q) (y : Z) (lg : Q * Q) (bk : Backup) (yb : YearBreakdown)
    : Prop := {
  ys_year_index : year_index yb = (y + 1)%Z;
  ys_clients : clients yb = clients_of inputs y;
  ys_environments_global : environments_global yb = total_envs_of inputs y;
  ys_storage_accounts : storage_accounts yb = total_accounts;
  ys_avg_state_size_gb : avg_state_size_gb yb = py_round avg_gb 6;
  ys_storage_gb : storage_gb yb = py_round (total_state_gb_of inputs avg_gb y) 6;
  ys_transactions :
    transactions yb
    = {| reads := py_int (total_reads_of inputs y);
         writes := py_int (total_writes_of inputs y);
         total := py_int (total_txns_of inputs y);
         read_cost :=
           total_reads_of inputs y / 10000 * read_txn_per_10k_price rates;
         write_cost :=
           total_writes_of inputs y / 10000 * write_txn_per_10k_price rates;
         total_txn_cost :=
           total_reads_of inputs y / 10000 * read_txn_per_10k_price rates
           + total_writes_of inputs y / 10000 * write_txn_per_10k_price rates |};
  ys_private_link :
    private_link yb
    = {| endpoint_hours :=
           inject_Z total_accounts * hours_per_month inputs * 12;
         data_processed_gb := total_txns_of inputs y * avg_gb;
         endpoint_hour_cost :=
           inject_Z total_accounts * hours_per_month inputs * 12
           * private_endpoint_hour_price rates;
         data_cost :=
           total_txns_of inputs y * avg_gb
           * private_link_data_price_per_gb rates;
         total_pl_cost :=
           inject_Z total_accounts * hours_per_month inputs * 12
           * private_endpoint_hour_price rates
           + total_txns_of inputs y * avg_gb
             * private_link_data_price_per_gb rates |};
  ys_logging :
    logging yb
    = {| logging_log_bytes_per_txn := log_bytes_per_txn inputs;
         gb_per_account_per_month := fst lg;
         ingestion_gb_year := snd lg;
         ingestion_cost_year := snd lg * log_ingestion_price_per_gb rates |};
  ys_backup : backup yb = bk;
  ys_storage_cost_year :
    storage_cost_year yb
    = total_state_gb_of inputs avg_gb y * storage_gb_month_price rates * 12;
  ys_year_total_cost :
    year_total_cost yb
    = if BackupMode_eqb (backup_mode inputs) blobs_vaulted then
        storage_cost_year yb + total_txn_cost (transactions yb)
        + total_pl_cost (private_link yb) + ingestion_cost_year (logging yb)
        + (instance_cost_year bk + vault_storage_cost_year bk
           + backup_write_ops_cost_year bk)
      else
        storage_cost_year yb + total_txn_cost (transactions yb)
        + total_pl_cost (private_link yb) + ingestion_cost_year (logging yb)
}.

(** ** Binary64 replay of the growth projector and of the logging block

    The exact-rational reading above differs from the running program
    wherever a rounded product crosses an integer or a division is undone
    by a multiplication.  This module replays the two places where that
    matters, [_clients_in_year] and the log-ingestion block, in IEEE 754
    binary64, the arithmetic of Python's [float]: [+], [*] and [/] are the
    kernel's primitive operations, and the conversions are written out from
    the float's sign, mantissa and exponent. *)

Module Binary64.

Inductive Error : Type :=
| ZeroDivisionError
| OverflowError
| ValueError.

Inductive outcome (A : Type) : Type :=
| Return (a : A)
| Raise (e : Error).

Arguments Return {A} a.
Arguments Raise {A} e.

#[global] Instance outcome_ret : MRet outcome := fun A a => Return a.

#[global] Instance outcome_bind : MBind outcome := fun A B k m =>
  match m with
  | Return a => k a
  | Raise e => Raise e
  end.

(** The float nearest to [m * 2^e], ties to even; an infinity when that
    value is out of range. *)
Definition nearest (m e : Z) : float :=
  SF2Prim (binary_normalize prec emax m e false).

(** The implicit conversion of an [int] operand to [float]: correctly
    rounded, [OverflowError] when the integer is too large. *)
Definition of_int (z : Z) : outcome float :=
  let f := nearest z 0 in
  if is_infinity f then Raise OverflowError else Return f.

(** [x / y] on floats. *)
Definition truediv (x y : float) : outcome float :=
  if (y =? 0)%float then Raise ZeroDivisionError else Return (x / y)%float.

(** [x ** n] for a float [x] and a non-negative int [n].  The C library's
    [pow] is read as correctly rounded: the exact power [(m * 2^e)^n =
    m^n * 2^(e*n)] is rounded once.  That is what [pow] returns for [n = 0]
    and [n = 1] and whenever the power is representable; a finite base
    whose power is out of range raises [OverflowError]. *)
Definition pow (x : float) (n : N) : outcome float :=
  match n with
  | N0 => Return 1%float
  | Npos p =>
      match Prim2SF x with
      | S754_finite s m e =>
          let f :=
            nearest (Z.pow (cond_Zopp s (Zpos m)) (Zpos p)) (e * Zpos p) in
          if is_infinity f then Raise OverflowError else Return f
      | S754_zero s => Return (if s && Z.odd (Zpos p) then neg_zero else zero)
      | S754_infinity s =>
          Return (if s && Z.odd (Zpos p) then neg_infinity else infinity)
      | S754_nan => Return nan
      end
  end.

(** [math.ceil(x)]: the least integer not below [x]; [OverflowError] for an
    infinity and [ValueError] for a NaN. *)
Definition ceil (x : float) : outcome Z :=
  match Prim2SF x with
  | S754_zero _ => Return 0%Z
  | S754_finite s m e =>
      let a := cond_Zopp s (Zpos m) in
      Return (match e with
              | Zneg k => (- ((- a) / Z.pow 2 (Zpos k)))%Z
              | _ => (a * Z.pow 2 e)%Z
              end)
  | S754_infinity _ => Raise OverflowError
  | S754_nan => Raise ValueError
  end.


(** [_clients_in_year] (lines 69-71), for a zero-based year index. *)
Definition _clients_in_year (base_clients : Z) (growth_rate : float)
    (year_index : N) : outcome Z :=
  p ← pow (1 + growth_rate)%float year_index;
  b ← of_int base_clients;
  ceil (b * p)%float.

(** The log-ingestion block of the loop body (lines 133-140); returns
    [(log_gb_per_account_per_month, log_ingestion_gb_year)]. *)
Definition estimate_logging (total_accounts : Z)
    (total_txns log_bytes_per_txn : float) : outcome (float * float) :=
  if (total_accounts >? 0)%Z then
    txns_per_month_all ← truediv total_txns 12;
    accounts ← of_int total_accounts;
    txns_per_month_per_account ← truediv txns_per_month_all accounts;
    gib ← pow 1024 3;
    log_gb_per_account_per_month ←
      truediv (txns_per_month_per_account * log_bytes_per_txn)%float gib;
    let log_ingestion_gb_year :=
      (accounts * log_gb_per_account_per_month * 12)%float in
    mret (log_gb_per_account_per_month, log_ingestion_gb_year)
  else mret (0%float, 0%float).

End Binary64.

(** * Verification *)

(** ** The result monad *)

Lemma bind_Ok {A B : Type} (k : A -> result B) (a : A) :
  (Ok a ≫= k) = k a.
Proof. reflexivity. Qed.

Lemma bind_Ok_inv {A B : Type} (k : A -> result B) (m : result A) (b : B) :
  (m ≫= k) = Ok b -> exists a, m = Ok a /\ k a = Ok b.
Proof.
  destruct m as [a|e]; intros H.
  - exists a. split; [reflexivity | exact H].
  - discriminate H.
Qed.

(** ** Numeric primitives *)

Lemma py_truediv_Ok (x y : Q) :
  ~ y == 0 -> py_truediv x y = Ok (x / y).
Proof.
  intros Hy. unfold py_truediv.
  destruct (Qeq_bool y 0) eqn:E; [| reflexivity].
  apply Qeq_bool_eq in E. contradiction.
Qed.

Lemma py_truediv_inv (x y q : Q) :
  py_truediv x y = Ok q -> q = x / y /\ ~ y == 0.
Proof.
  unfold py_truediv. destruct (Qeq_bool y 0) eqn:E; intros H.
  - discriminate H.
  - injection H as <-. split; [reflexivity |].
    intros Hy. apply Qeq_eq_bool in Hy. congruence.
Qed.

Lemma py_truediv_zero (x : Q) : py_truediv x 0 = Raise ZeroDivisionError.
Proof. reflexivity. Qed.

Lemma inject_Z_pos_nonzero (z : Z) : (0 < z)%Z -> ~ inject_Z z == 0.
Proof.
  intros Hz H. unfold Qeq in H. simpl in H. lia.
Qed.

Lemma gtb_pos (z : Z) : (0 < z)%Z -> (z >? 0)%Z = true.
Proof. intros H. apply Z.gtb_lt. lia. Qed.

Lemma gtb_nonpos (z : Z) : (z <= 0)%Z -> (z >? 0)%Z = false.
Proof. intros H. rewrite Z.gtb_ltb. apply Z.ltb_ge. exact H. Qed.

Lemma py_pow_Ok (x : Q) (n : Z) :
  (0 <= n)%Z -> py_pow x n = Ok (x ^ n).
Proof.
  intros Hn. unfold py_pow.
  replace (n <? 0)%Z with false by (symmetry; apply Z.ltb_ge; exact Hn).
  rewrite andb_false_r. reflexivity.
Qed.

Lemma py_lt_true (x y : Q) : py_lt x y = true <-> x < y.
Proof.
  unfold py_lt. rewrite Qlt_alt.
  destruct (x ?= y); split; congruence.
Qed.

Lemma py_lt_false (x y : Q) : py_lt x y = false <-> y <= x.
Proof.
  pose proof (py_lt_true x y) as [H1 H2].
  destruct (py_lt x y) eqn:E; split; intros H.
  - discriminate H.
  - apply Qle_not_lt in H. exfalso. apply H, H1. reflexivity.
  - apply Qnot_lt_le. intros Hlt. apply H2 in Hlt. discriminate Hlt.
  - reflexivity.
Qed.

Lemma py_int_nonneg (x : Q) : 0 <= x -> py_int x = Qfloor x.
Proof.
  intros Hx. unfold py_int.
  replace (py_lt x 0) with false; [reflexivity |].
  symmetry. apply py_lt_false. exact Hx.
Qed.

Lemma py_int_le (x : Q) : 0 <= x -> inject_Z (py_int x) <= x.
Proof.
  intros Hx. rewrite py_int_nonneg by exact Hx. apply Qfloor_le.
Qed.

Lemma py_range_nonneg (n y : Z) : In y (py_range n) -> (0 <= y < n)%Z.
Proof.
  unfold py_range. intros H. apply in_map_iff in H.
  destruct H as [k [<- Hk]]. apply in_seq in Hk. lia.
Qed.

Lemma py_range_nonpos (n : Z) : (n <= 0)%Z -> py_range n = [].
Proof.
  intros Hn. unfold py_range.
  replace (Z.to_nat n) with 0%nat by lia. reflexivity.
Qed.

Lemma py_range_length (n : Z) : length (py_range n) = Z.to_nat n.
Proof. unfold py_range. rewrite length_map, length_seq. reflexivity. Qed.

(** ** Growth projector *)

Lemma clients_in_year_Ok (base_clients : Z) (growth_rate : Q) (k : Z) :
  (0 <= k)%Z ->
  _clients_in_year base_clients growth_rate k
  = Ok (Qceiling (inject_Z base_clients * (1 + growth_rate) ^ k)).
Proof.
  intros Hk. unfold _clients_in_year.
  rewrite py_pow_Ok by exact Hk. reflexivity.
Qed.

(** ** The logging and backup blocks *)

Lemma gib_nonzero : ~ 1024 ^ 3 == 0.
Proof. intros H. vm_compute in H. discriminate H. Qed.

Lemma estimate_logging_pos (inputs : Inputs) (total_accounts : Z) (total_txns : Q) :
  (0 < total_accounts)%Z ->
  estimate_logging inputs total_accounts total_txns
  = Ok (total_txns / 12 / inject_Z total_accounts * log_bytes_per_txn inputs
        / 1024 ^ 3,
        inject_Z total_accounts
        * (total_txns / 12 / inject_Z total_accounts * log_bytes_per_txn inputs
           / 1024 ^ 3)
        * 12).
Proof.
  intros Hpos. unfold estimate_logging.
  rewrite (gtb_pos _ Hpos).
  change (py_truediv total_txns 12) with (Ok (total_txns / 12)).
  rewrite bind_Ok.
  rewrite py_truediv_Ok by (apply inject_Z_pos_nonzero; exact Hpos).
  rewrite bind_Ok.
  change (py_pow 1024 3) with (Ok (1024 ^ 3)).
  rewrite bind_Ok.
  rewrite py_truediv_Ok by exact gib_nonzero.
  reflexivity.
Qed.

Lemma estimate_logging_nonpos (inputs : Inputs) (total_accounts : Z) (total_txns : Q) :
  (total_accounts <= 0)%Z ->
  estimate_logging inputs total_accounts total_txns = Ok (0, 0).
Proof.
  intros Hle. unfold estimate_logging.
  rewrite (gtb_nonpos _ Hle). reflexivity.
Qed.

Lemma estimate_backup_none (inputs : Inputs) (total_accounts : Z) (gb : Q) :
  backup_mode inputs = none ->
  estimate_backup inputs total_accounts gb = Ok (backup_zero none).
Proof.
  intros Hm. unfold estimate_backup. rewrite Hm. reflexivity.
Qed.

Lemma estimate_backup_nonpos (inputs : Inputs) (total_accounts : Z) (gb : Q) :
  (total_accounts <= 0)%Z ->
  estimate_backup inputs total_accounts gb
  = Ok (backup_zero (backup_mode inputs)).
Proof.
  intros Hle. unfold estimate_backup.
  rewrite (gtb_nonpos _ Hle).
  rewrite andb_false_r. reflexivity.
Qed.

Lemma estimate_backup_operational (inputs : Inputs) (total_accounts : Z) (gb : Q) :
  backup_mode inputs = blobs_operational ->
  (0 < total_accounts)%Z ->
  estimate_backup inputs total_accounts gb
  = Ok {| mode := blobs_operational;
          per_account_size_gb := gb / inject_Z total_accounts;
          pi_monthly_fee_per_account := 0;
          instance_cost_year := 0;
          vault_storage_cost_year := 0;
          backup_write_ops_year := 0;
          backup_write_ops_cost_year := 0 |}.
Proof.
  intros Hm Hpos. unfold estimate_backup. rewrite Hm.
  rewrite (gtb_pos _ Hpos).
  cbn [BackupMode_eqb negb andb].
  rewrite (py_truediv_Ok gb (inject_Z total_accounts))
    by (apply inject_Z_pos_nonzero; exact Hpos).
  reflexivity.
Qed.

Lemma estimate_backup_vaulted (inputs : Inputs) (total_accounts : Z) (gb : Q) :
  backup_mode inputs = blobs_vaulted ->
  (0 < total_accounts)%Z ->
  let size_gb := gb / inject_Z total_accounts in
  let pi_monthly :=
    _blobs_vaulted_pi_monthly_fee size_gb
      (blob_vaulted_pi_price_per_month inputs) (blob_vaulted_tiers inputs) in
  estimate_backup inputs total_accounts gb
  = Ok {| mode := blobs_vaulted;
          per_account_size_gb := size_gb;
          pi_monthly_fee_per_account := pi_monthly;
          instance_cost_year := pi_monthly * inject_Z total_accounts * 12;
          vault_storage_cost_year :=
            backup_vault_storage_gb_per_account_month inputs
            * backup_vault_storage_price_per_gb_month inputs
            * inject_Z total_accounts * 12;
          backup_write_ops_year :=
            blob_vaulted_write_ops_per_month_per_account inputs
            * inject_Z total_accounts * 12;
          backup_write_ops_cost_year :=
            blob_vaulted_write_ops_per_month_per_account inputs
            * inject_Z total_accounts * 12 / 10000
            * blob_vaulted_write_per_10k_price inputs |}.
Proof.
  intros Hm Hpos size_gb pi_monthly. unfold estimate_backup. rewrite Hm.
  rewrite (gtb_pos _ Hpos).
  cbn [BackupMode_eqb negb andb].
  rewrite (py_truediv_Ok gb (inject_Z total_accounts))
    by (apply inject_Z_pos_nonzero; exact Hpos).
  reflexivity.
Qed.

Lemma estimate_backup_total (inputs : Inputs) (total_accounts : Z) (gb : Q) :
  exists bk, estimate_backup inputs total_accounts gb = Ok bk.
Proof.
  destruct (Z_lt_le_dec 0 total_accounts) as [Hpos | Hle].
  - destruct (backup_mode inputs) eqn:Hm.
    + eexists. apply estimate_backup_none. exact Hm.
    + eexists. apply estimate_backup_operational; assumption.
    + eexists. apply estimate_backup_vaulted; assumption.
  - eexists. apply estimate_backup_nonpos. exact Hle.
Qed.

Lemma estimate_logging_total (inputs : Inputs) (total_accounts : Z) (total_txns : Q) :
  exists lg, estimate_logging inputs total_accounts total_txns = Ok lg.
Proof.
  destruct (Z_lt_le_dec 0 total_accounts) as [Hpos | Hle].
  - eexists. apply estimate_logging_pos. exact Hpos.
  - eexists. apply estimate_logging_nonpos. exact Hle.
Qed.

(** ** One year *)

(** Every iteration with a non-negative index returns, and each field of
    the breakdown is the expression the loop body assigns to it. *)
Lemma estimate_year_fields (inputs : Inputs) (rates : Rates)
    (total_accounts : Z) (avg_gb : Q) (y : Z) :
  (0 <= y)%Z ->
  exists yb lg bk,
    estimate_year inputs rates total_accounts avg_gb y = Ok yb
    /\ estimate_logging inputs total_accounts (total_txns_of inputs y) = Ok lg
    /\ estimate_backup inputs total_accounts (total_state_gb_of inputs avg_gb y)
       = Ok bk
    /\ year_spec inputs rates total_accounts avg_gb y lg bk yb.
Proof.
  intros Hy.
  destruct (estimate_logging_total inputs total_accounts
              (total_txns_of inputs y)) as [[lg1 lg2] Hlg].
  destruct (estimate_backup_total inputs total_accounts
              (total_state_gb_of inputs avg_gb y)) as [bk Hbk].
  eexists _, (lg1, lg2), bk.
  split.
  { unfold estimate_year.
    rewrite (clients_in_year_Ok _ _ _ Hy), bind_Ok.
    fold (clients_of inputs y). fold (total_envs_of inputs y).
    fold (total_state_gb_of inputs avg_gb y).
    fold (reads_per_env_of inputs). fold (writes_per_env_of inputs).
    fold (total_reads_of inputs y). fold (total_writes_of inputs y).
    fold (total_txns_of inputs y).
    change (py_truediv (total_reads_of inputs y) 10000)
      with (Ok (total_reads_of inputs y / 10000)).
    rewrite bind_Ok.
    change (py_truediv (total_writes_of inputs y) 10000)
      with (Ok (total_writes_of inputs y / 10000)).
    rewrite bind_Ok.
    rewrite Hlg, bind_Ok. rewrite Hbk, bind_Ok.
    reflexivity. }
  split; [exact Hlg |]. split; [exact Hbk |].
  constructor; reflexivity.
Qed.

(** ** The loop and the entry point *)

Lemma estimate_loop_spec (body : Z -> result YearBreakdown) (ys : list Z) :
  forall acc,
    (forall y, In y ys -> exists yb, body y = Ok yb) ->
    exists l,
      estimate_loop body ys acc = Ok (acc ++ l)
      /\ Forall2 (fun y yb => body y = Ok yb) ys l.
Proof.
  induction ys as [| y ys IH]; intros acc Hbody.
  - exists []. split; [| constructor].
    simpl. rewrite app_nil_r. reflexivity.
  - destruct (Hbody y (or_introl eq_refl)) as [yb Hyb].
    destruct (IH (acc ++ [yb])) as [l [Hl HF]].
    { intros y' Hy'. apply Hbody. right. exact Hy'. }
    exists (yb :: l). split.
    + simpl. rewrite Hyb, bind_Ok, Hl.
      rewrite <- app_assoc. reflexivity.
    + constructor; assumption.
Qed.

(** [estimate_backend_costs] always returns: its breakdowns are the results
    of the iterations for [y = 0, ..., years - 1], in order, and its grand
    total is the running sum of their totals. *)
Lemma estimate_backend_costs_spec (inputs : Inputs) (rates : Rates) :
  exists bys,
    estimate_backend_costs inputs rates
    = Ok {| by_year := bys; grand_total := py_sum (map year_total_cost bys) |}
    /\ Forall2
         (fun y yb =>
            estimate_year inputs rates (total_accounts_of inputs)
              (avg_gb_of inputs) y = Ok yb)
         (py_range (years inputs)) bys.
Proof.
  destruct (estimate_loop_spec
              (estimate_year inputs rates (total_accounts_of inputs)
                 (avg_gb_of inputs))
              (py_range (years inputs)) []) as [bys [Hloop HF]].
  { intros y Hy. apply py_range_nonneg in Hy.
    destruct (estimate_year_fields inputs rates (total_accounts_of inputs)
                (avg_gb_of inputs) y) as (yb & _ & _ & Hyb & _); [lia |].
    exists yb. exact Hyb. }
  exists bys. split; [| exact HF].
  unfold estimate_backend_costs.
  change (py_truediv (avg_state_size_mb inputs) 1024)
    with (Ok (avg_gb_of inputs)).
  rewrite bind_Ok.
  fold (total_accounts_of inputs).
  rewrite Hloop, bind_Ok. reflexivity.
Qed.

Lemma Forall2_In_r {A B : Type} (P : A -> B -> Prop) (l1 : list A)
    (l2 : list B) (b : B) :
  Forall2 P l1 l2 -> In b l2 -> exists a, In a l1 /\ P a b.
Proof.
  induction 1 as [| a b' l1 l2 Hab HF IH]; intros Hin.
  - contradiction.
  - destruct Hin as [-> | Hin].
    + exists a. split; [left; reflexivity | exact Hab].
    + destruct (IH Hin) as [a' [Ha' HP]].
      exists a'. split; [right; exact Ha' | exact HP].
Qed.

(** The entry point always returns; each breakdown of its result is the
    outcome of one iteration. *)
Lemma by_year_spec (inputs : Inputs) (rates : Rates) :
  exists r,
    estimate_backend_costs inputs rates = Ok r
    /\ grand_total r = py_sum (map year_total_cost (by_year r))
    /\ length (by_year r) = Z.to_nat (years inputs)
    /\ forall yb,
         In yb (by_year r) ->
         exists y lg bk,
           (0 <= y < years inputs)%Z
           /\ estimate_logging inputs (total_accounts_of inputs)
                (total_txns_of inputs y) = Ok lg
           /\ estimate_backup inputs (total_accounts_of inputs)
                (total_state_gb_of inputs (avg_gb_of inputs) y) = Ok bk
           /\ year_spec inputs rates (total_accounts_of inputs)
                (avg_gb_of inputs) y lg bk yb.
Proof.
  destruct (estimate_backend_costs_spec inputs rates) as [bys [Hbys HF]].
  eexists. split; [exact Hbys |]. cbn [by_year grand_total].
  split; [reflexivity |]. split.
  { rewrite <- (Forall2_length _ _ _ HF). apply py_range_length. }
  intros yb Hin.
  destruct (Forall2_In_r _ _ _ _ HF Hin) as [y [Hy Hyb]].
  apply py_range_nonneg in Hy.
  destruct (estimate_year_fields inputs rates (total_accounts_of inputs)
              (avg_gb_of inputs) y) as (yb' & lg & bk & Hyb' & Hlg & Hbk & Hspec);
    [lia |].
  rewrite Hyb in Hyb'. injection Hyb' as <-.
  exists y, lg, bk.
  split; [lia |]. split; [exact Hlg |]. split; [exact Hbk | exact Hspec].
Qed.

(** ** Tier lookup *)

Lemma tier_fee_band_lt10 (size base : Q) (tiers : gmap string Q) :
  size < 10 ->
  _blobs_vaulted_pi_monthly_fee size base tiers
  = base * dict_get tiers "<10GB" 0.
Proof.
  intros H. unfold _blobs_vaulted_pi_monthly_fee.
  apply py_lt_true in H. rewrite H. reflexivity.
Qed.

Lemma tier_fee_band_10_100 (size base : Q) (tiers : gmap string Q) :
  10 <= size -> size < 100 ->
  _blobs_vaulted_pi_monthly_fee size base tiers
  = base * dict_get tiers "10-100GB" 0.
Proof.
  intros H1 H2. unfold _blobs_vaulted_pi_monthly_fee.
  apply py_lt_false in H1. apply py_lt_true in H2.
  rewrite H1, H2. reflexivity.
Qed.

Lemma tier_fee_band_100_1024 (size base : Q) (tiers : gmap string Q) :
  100 <= size -> size < 1024 ->
  _blobs_vaulted_pi_monthly_fee size base tiers
  = base * dict_get tiers "100GB-1TB" 0.
Proof.
  intros H1 H2. unfold _blobs_vaulted_pi_monthly_fee.
  assert (H0 : 10 <= size) by (eapply Qle_trans; [| exact H1]; discriminate).
  apply py_lt_false in H0. apply py_lt_false in H1. apply py_lt_true in H2.
  rewrite H0, H1, H2. reflexivity.
Qed.

Lemma tier_fee_band_ge1024 (size base : Q) (tiers : gmap string Q) :
  1024 <= size ->
  _blobs_vaulted_pi_monthly_fee size base tiers
  = base * dict_get tiers ">=1TB" 1.
Proof.
  intros H2. unfold _blobs_vaulted_pi_monthly_fee.
  assert (H1 : 100 <= size) by (eapply Qle_trans; [| exact H2]; discriminate).
  assert (H0 : 10 <= size) by (eapply Qle_trans; [| exact H1]; discriminate).
  apply py_lt_false in H0. apply py_lt_false in H1. apply py_lt_false in H2.
  rewrite H0, H1, H2. reflexivity.
Qed.

Lemma dict_get_present (d : gmap string Q) (key : string) (dflt v : Q) :
  d !! key = Some v -> dict_get d key dflt = v.
Proof. intros H. unfold dict_get. rewrite H. reflexivity. Qed.

Lemma dict_get_missing (d : gmap string Q) (key : string) (dflt : Q) :
  d !! key = None -> dict_get d key dflt = dflt.
Proof. intros H. unfold dict_get. rewrite H. reflexivity. Qed.

(** C3.  The tier lookup uses the half-open bands [0,10), [10,100),
    [100,1024) and [1024,infinity), keyed "<10GB", "10-100GB", "100GB-1TB"
    and ">=1TB"; the fee is the base monthly price times the table's
    fraction for the band, a missing key counting as 0 in the three lower
    bands and as 1 in the top band.  With the default table and base 8 the
    fee is 8 * 0.10 at size 9.999, 8 * 0.30 at size 10 and 8 * 1.00 at
    size 1024. *)
Theorem C3_tier_lookup_bands :
  (forall (size base : Q) (tiers : gmap string Q),
      let fee := _blobs_vaulted_pi_monthly_fee size base tiers in
      let fraction (key : string) (missing : Q) : Q :=
        match tiers !! key with
        | Some f => f
        | None => missing
        end in
      (0 <= size /\ size < 10 -> fee = base * fraction "<10GB"%string 0)
      /\ (10 <= size /\ size < 100 -> fee = base * fraction "10-100GB"%string 0)
      /\ (100 <= size /\ size < 1024 -> fee = base * fraction "100GB-1TB"%string 0)
      /\ (1024 <= size -> fee = base * fraction ">=1TB"%string 1))
  /\ _blobs_vaulted_pi_monthly_fee 9.999 8.0 default_tiers == 8.0 * 0.10
  /\ _blobs_vaulted_pi_monthly_fee 10.0 8.0 default_tiers == 8.0 * 0.30
  /\ _blobs_vaulted_pi_monthly_fee 1024.0 8.0 default_tiers == 8.0 * 1.00.
Proof.
  split.
  - intros size base tiers fee fraction. subst fee fraction. cbv beta.
    repeat split.
    + intros [_ H]. apply tier_fee_band_lt10. exact H.
    + intros [H1 H2]. apply tier_fee_band_10_100; assumption.
    + intros [H1 H2]. apply tier_fee_band_100_1024; assumption.
    + intros H. apply tier_fee_band_ge1024. exact H.
  - repeat split; vm_compute; reflexivity.
Qed.

(** ** Growth projector: the claims *)


Lemma clients_in_year_nonneg (base_clients : Z) (growth_rate : Q) (k : Z) :
  (0 <= base_clients)%Z -> -1 <= growth_rate ->
  (0 <= Qceiling (inject_Z base_clients * (1 + growth_rate) ^ k))%Z.
Proof.
  intros Hb Hr.
  change 0%Z with (Qceiling 0).
  apply Qceiling_resp_le.
  apply Qmult_le_0_compat.
  - change 0 with (inject_Z 0). rewrite <- Zle_Qle. exact Hb.
  - apply Qpower_0_le. lra.
Qed.




(** ** Year totals and the grand total *)

Lemma fold_left_Qplus (xs : list Q) (a : Q) :
  fold_left Qplus xs a == a + sum_Q xs.
Proof.
  revert a. induction xs as [| x xs IH]; intros a; simpl.
  - ring.
  - rewrite IH. ring.
Qed.

Lemma py_sum_sum_Q (xs : list Q) : py_sum xs == sum_Q xs.
Proof. unfold py_sum. rewrite fold_left_Qplus. ring. Qed.

(** C1.  Every call returns a result in which each year's
    [year_total_cost] is the sum of that year's storage, transaction,
    private-link and log-ingestion costs, plus the three backup cost terms
    (instance, vault storage, write-ops) exactly when the backup mode is
    [blobs_vaulted]; and [grand_total] is the sum of [year_total_cost] over
    the records of [by_year]. *)
Theorem C1_year_total_and_grand_total (inputs : Inputs) (rates : Rates) :
  exists r,
    estimate_backend_costs inputs rates = Ok r
    /\ (forall yb,
          In yb (by_year r) ->
          let four_costs :=
            storage_cost_year yb + total_txn_cost (transactions yb)
            + total_pl_cost (private_link yb)
            + ingestion_cost_year (logging yb) in
          let backup_costs :=
            instance_cost_year (backup yb)
            + vault_storage_cost_year (backup yb)
            + backup_write_ops_cost_year (backup yb) in
          (backup_mode inputs = blobs_vaulted ->
           year_total_cost yb = four_costs + backup_costs)
          /\ (backup_mode inputs <> blobs_vaulted ->
              year_total_cost yb = four_costs))
    /\ grand_total r = py_sum (map year_total_cost (by_year r))
    /\ grand_total r == sum_Q (map year_total_cost (by_year r)).
Proof.
  destruct (by_year_spec inputs rates) as (r & Hr & Hsum & _ & Hyears).
  exists r. split; [exact Hr |]. split.
  - intros yb Hin four_costs backup_costs. subst four_costs backup_costs.
    destruct (Hyears yb Hin) as (y & lg & bk & _ & _ & _ & Hspec).
    rewrite (ys_year_total_cost _ _ _ _ _ _ _ _ Hspec).
    rewrite (ys_backup _ _ _ _ _ _ _ _ Hspec).
    split; intros Hm.
    + rewrite Hm. reflexivity.
    + destruct (backup_mode inputs); [reflexivity | reflexivity | congruence].
  - split; [exact Hsum |]. rewrite Hsum. apply py_sum_sum_Q.
Qed.

(** ** Backup policy *)

(** The result of the backup block, by mode and sign of the account count. *)
Lemma estimate_backup_cases (inputs : Inputs) (total_accounts : Z) (gb : Q)
    (bk : Backup) :
  estimate_backup inputs total_accounts gb = Ok bk ->
  mode bk = backup_mode inputs
  /\ ((total_accounts <= 0)%Z \/ backup_mode inputs = none ->
      bk = backup_zero (backup_mode inputs))
  /\ ((0 < total_accounts)%Z -> backup_mode inputs <> none ->
      per_account_size_gb bk = gb / inject_Z total_accounts)
  /\ (backup_mode inputs = blobs_operational ->
      pi_monthly_fee_per_account bk = 0
      /\ instance_cost_year bk = 0
      /\ vault_storage_cost_year bk = 0
      /\ backup_write_ops_year bk = 0
      /\ backup_write_ops_cost_year bk = 0)
  /\ ((0 < total_accounts)%Z -> backup_mode inputs = blobs_vaulted ->
      let pi_monthly :=
        _blobs_vaulted_pi_monthly_fee (per_account_size_gb bk)
          (blob_vaulted_pi_price_per_month inputs)
          (blob_vaulted_tiers inputs) in
      pi_monthly_fee_per_account bk = pi_monthly
      /\ instance_cost_year bk = pi_monthly * inject_Z total_accounts * 12
      /\ vault_storage_cost_year bk
         = backup_vault_storage_gb_per_account_month inputs
           * backup_vault_storage_price_per_gb_month inputs
           * inject_Z total_accounts * 12
      /\ backup_write_ops_year bk
         = blob_vaulted_write_ops_per_month_per_account inputs
           * inject_Z total_accounts * 12
      /\ backup_write_ops_cost_year bk
         = blob_vaulted_write_ops_per_month_per_account inputs
           * inject_Z total_accounts * 12 / 10000
           * blob_vaulted_write_per_10k_price inputs).
Proof.
  intros Hbk.
  destruct (Z_lt_le_dec 0 total_accounts) as [Hpos | Hle].
  - destruct (backup_mode inputs) eqn:Hm.
    + rewrite (estimate_backup_none _ _ _ Hm) in Hbk. injection Hbk as <-.
      repeat split; try reflexivity; try congruence; intros; try congruence; lia.
    + rewrite (estimate_backup_operational _ _ _ Hm Hpos) in Hbk.
      injection Hbk as <-.
      repeat split; try reflexivity; try congruence;
        intros; try congruence; try lia.
      destruct H; [lia | congruence].
    + rewrite (estimate_backup_vaulted _ _ _ Hm Hpos) in Hbk.
      injection Hbk as <-.
      repeat split; try reflexivity; try congruence;
        intros; try congruence; try lia.
      destruct H; [lia | congruence].
  - rewrite (estimate_backup_nonpos _ _ _ Hle) in Hbk. injection Hbk as <-.
    split; [reflexivity |]. split; [reflexivity |].
    split; [intros; lia |]. split; [intros; repeat split |].
    intros; lia.
Qed.




(** ** Transactions and storage *)

Lemma py_lt_comp (x x' y y' : Q) : x == x' -> y == y' -> py_lt x y = py_lt x' y'.
Proof.
  intros Hx Hy. unfold py_lt. rewrite (Qcompare_comp x x' Hx y y' Hy).
  reflexivity.
Qed.

Lemma py_int_comp (x x' : Q) : x == x' -> py_int x = py_int x'.
Proof.
  intros Hx. unfold py_int.
  rewrite (py_lt_comp x x' 0 0 Hx (Qeq_refl 0)).
  rewrite (Qceiling_comp x x' Hx), (Qfloor_comp x x' Hx). reflexivity.
Qed.

Lemma py_int_inject_Z (z : Z) : py_int (inject_Z z) = z.
Proof.
  unfold py_int. rewrite Qceiling_Z, Qfloor_Z.
  destruct (py_lt (inject_Z z) 0); reflexivity.
Qed.

(** The transaction block of every breakdown, in terms of the reported
    [environments_global]. *)
Lemma transactions_of_environments (inputs : Inputs) (rates : Rates) :
  exists r,
    estimate_backend_costs inputs rates = Ok r
    /\ forall yb,
         In yb (by_year r) ->
         let total_reads :=
           inject_Z (3 * deployments_per_env_per_year inputs
                     + pr_runs_per_client_per_year inputs)
           * environments_global yb in
         let total_writes :=
           inject_Z (deployments_per_env_per_year inputs)
           * environments_global yb in
         reads (transactions yb) = py_int total_reads
         /\ writes (transactions yb) = py_int total_writes
         /\ total (transactions yb) = py_int (total_reads + total_writes)
         /\ read_cost (transactions yb)
            = total_reads / 10000 * read_txn_per_10k_price rates
         /\ write_cost (transactions yb)
            = total_writes / 10000 * write_txn_per_10k_price rates.
Proof.
  destruct (by_year_spec inputs rates) as (r & Hr & _ & _ & Hyears).
  exists r. split; [exact Hr |].
  intros yb Hin. cbv zeta.
  destruct (Hyears yb Hin) as (y & lg & bk & _ & _ & _ & Hspec).
  rewrite (ys_transactions _ _ _ _ _ _ _ _ Hspec).
  rewrite (ys_environments_global _ _ _ _ _ _ _ _ Hspec).
  cbn [reads writes total read_cost write_cost].
  unfold total_txns_of, total_reads_of, total_writes_of,
    reads_per_env_of, writes_per_env_of.
  rewrite Z.mul_1_l. repeat split.
Qed.

(** C5.  In every year, with [reads_per_env = 3 * deployments_per_env_per_year
    + pr_runs_per_client_per_year] and [writes_per_env =
    deployments_per_env_per_year], the read and write totals are these
    per-environment counts times [environments_global] (reported truncated
    to an integer), the storage cost is [environments_global *
    avg_state_size_gb * storage_gb_month_price * 12] and the transaction
    cost is [(total_reads / 10000) * read_price + (total_writes / 10000) *
    write_price].  In the scenario clients = 100, envs_per_client = 3.5,
    deployments = 200, PR runs = 16, regions = 3, accounts per region = 2,
    year 1 has environments_global = 350, storage_accounts = 6,
    reads_per_env = 616 and writes_per_env = 200. *)
Theorem C5_transactions_and_storage (inputs : Inputs) (rates : Rates) :
  exists r,
    estimate_backend_costs inputs rates = Ok r
    /\ (forall yb,
          In yb (by_year r) ->
          let reads_per_env :=
            (3 * deployments_per_env_per_year inputs
             + pr_runs_per_client_per_year inputs)%Z in
          let writes_per_env := deployments_per_env_per_year inputs in
          let total_reads := inject_Z reads_per_env * environments_global yb in
          let total_writes := inject_Z writes_per_env * environments_global yb in
          let avg_state_gb := avg_state_size_mb inputs / 1024 in
          reads (transactions yb) = py_int total_reads
          /\ writes (transactions yb) = py_int total_writes
          /\ total (transactions yb) = py_int (total_reads + total_writes)
          /\ read_cost (transactions yb)
             = total_reads / 10000 * read_txn_per_10k_price rates
          /\ write_cost (transactions yb)
             = total_writes / 10000 * write_txn_per_10k_price rates
          /\ total_txn_cost (transactions yb)
             = total_reads / 10000 * read_txn_per_10k_price rates
               + total_writes / 10000 * write_txn_per_10k_price rates
          /\ storage_cost_year yb
             = environments_global yb * avg_state_gb
               * storage_gb_month_price rates * 12)
    /\ (num_clients inputs = 100%Z ->
        envs_per_client inputs == 3.5 ->
        deployments_per_env_per_year inputs = 200%Z ->
        pr_runs_per_client_per_year inputs = 16%Z ->
        num_regions inputs = 3%Z ->
        storage_accounts_per_region inputs = 2%Z ->
        reads_per_env_of inputs = 616%Z
        /\ writes_per_env_of inputs = 200%Z
        /\ forall yb,
             In yb (by_year r) ->
             year_index yb = 1%Z ->
             environments_global yb == 350.0
             /\ storage_accounts yb = 6%Z
             /\ reads (transactions yb) = (616 * 350)%Z
             /\ writes (transactions yb) = (200 * 350)%Z).
Proof.
  destruct (by_year_spec inputs rates) as (r & Hr & _ & _ & Hyears).
  exists r. split; [exact Hr |]. split.
  - intros yb Hin. cbv zeta.
    destruct (Hyears yb Hin) as (y & lg & bk & _ & _ & _ & Hspec).
    rewrite (ys_transactions _ _ _ _ _ _ _ _ Hspec).
    rewrite (ys_storage_cost_year _ _ _ _ _ _ _ _ Hspec).
    rewrite (ys_environments_global _ _ _ _ _ _ _ _ Hspec).
    cbn [reads writes total read_cost write_cost total_txn_cost].
    unfold total_txns_of, total_reads_of, total_writes_of, total_state_gb_of,
      reads_per_env_of, writes_per_env_of, avg_gb_of.
    rewrite Z.mul_1_l. repeat split.
  - intros Hc He Hd Hp Hn Hs.
    unfold reads_per_env_of, writes_per_env_of. rewrite Hd, Hp.
    split; [reflexivity |]. split; [reflexivity |].
    intros yb Hin Hy1.
    destruct (Hyears yb Hin) as (y & lg & bk & _ & _ & _ & Hspec).
    assert (Hy : y = 0%Z).
    { pose proof (ys_year_index _ _ _ _ _ _ _ _ Hspec) as Hi. lia. }
    subst y.
    assert (Henv : total_envs_of inputs 0 == 350.0).
    { unfold total_envs_of, clients_of. rewrite Hc, He. reflexivity. }
    rewrite (ys_transactions _ _ _ _ _ _ _ _ Hspec).
    rewrite (ys_storage_accounts _ _ _ _ _ _ _ _ Hspec).
    rewrite (ys_environments_global _ _ _ _ _ _ _ _ Hspec).
    cbn [reads writes].
    split; [exact Henv |].
    split; [unfold total_accounts_of; rewrite Hn, Hs; reflexivity |].
    unfold total_reads_of, total_writes_of, reads_per_env_of, writes_per_env_of.
    rewrite Hd, Hp.
    split.
    + rewrite (py_int_comp _ (inject_Z (616 * 350))).
      * apply py_int_inject_Z.
      * rewrite Henv. reflexivity.
    + rewrite (py_int_comp _ (inject_Z (200 * 350))).
      * apply py_int_inject_Z.
      * rewrite Henv. reflexivity.
Qed.

Lemma C5_transactions_and_storage_witness :
  exists r yb,
    estimate_backend_costs runner_inputs runner_rates = Ok r
    /\ nth_error (by_year r) 0 = Some yb
    /\ year_index yb = 1%Z
    /\ environments_global yb == 350.0
    /\ storage_accounts yb = 6%Z
    /\ reads (transactions yb) = 215600%Z
    /\ writes (transactions yb) = 70000%Z.
Proof.
  destruct (C5_transactions_and_storage runner_inputs runner_rates)
    as (r & Hr & _ & H).
  pose proof Hr as Hr'. vm_compute in Hr'. injection Hr' as <-.
  eexists _, _. split; [exact Hr |].
  split; [reflexivity |].
  split; [reflexivity |].
  destruct (H eq_refl ltac:(reflexivity) eq_refl eq_refl eq_refl eq_refl)
    as (_ & _ & Hy).
  match type of Hy with
  | forall yb, In yb (by_year {| by_year := ?y0 :: _; grand_total := _ |}) -> _ =>
      destruct (Hy y0 (or_introl eq_refl) eq_refl) as (H1 & H2 & H3 & H4)
  end.
  repeat split; assumption.
Defined.

(** ** Position of each breakdown in the result *)

Lemma by_year_positions (inputs : Inputs) (rates : Rates) :
  exists r,
    estimate_backend_costs inputs rates = Ok r
    /\ Forall2
         (fun y yb =>
            exists lg bk,
              (0 <= y < years inputs)%Z
              /\ estimate_logging inputs (total_accounts_of inputs)
                   (total_txns_of inputs y) = Ok lg
              /\ estimate_backup inputs (total_accounts_of inputs)
                   (total_state_gb_of inputs (avg_gb_of inputs) y) = Ok bk
              /\ year_spec inputs rates (total_accounts_of inputs)
                   (avg_gb_of inputs) y lg bk yb)
         (py_range (years inputs)) (by_year r).
Proof.
  destruct (estimate_backend_costs_spec inputs rates) as [bys [Hbys HF]].
  eexists. split; [exact Hbys |]. cbn [by_year].
  assert (Hrange : Forall (fun y => (0 <= y < years inputs)%Z)
                     (py_range (years inputs))).
  { apply Forall_forall. intros y Hy. apply py_range_nonneg.
    apply list_elem_of_In. exact Hy. }
  clear Hbys.
  induction HF as [| y yb ys l Hyb HF IH]; [constructor |].
  inversion Hrange as [| ? ? Hy Hrange']; subst.
  constructor; [| apply IH; exact Hrange'].
  destruct (estimate_year_fields inputs rates (total_accounts_of inputs)
              (avg_gb_of inputs) y) as (yb' & lg & bk & Hyb' & Hlg & Hbk & Hspec);
    [lia |].
  rewrite Hyb in Hyb'. injection Hyb' as <-.
  exists lg, bk.
  split; [exact Hy |]. split; [exact Hlg |]. split; [exact Hbk | exact Hspec].
Qed.

Lemma Forall2_same_index {A B C : Type} (P : A -> B -> Prop)
    (P' : A -> C -> Prop) (R : B -> C -> Prop) (l : list A) (l1 : list B)
    (l2 : list C) :
  (forall a b c, P a b -> P' a c -> R b c) ->
  Forall2 P l l1 -> Forall2 P' l l2 -> Forall2 R l1 l2.
Proof.
  intros HR HF. revert l2.
  induction HF as [| a b l l1 Hab HF IH]; intros l2 HF'.
  - inversion HF'. constructor.
  - inversion HF' as [| ? c ? l2' Hac HF'']; subst.
    constructor; [eapply HR; eassumption | apply IH; exact HF''].
Qed.

(** ** Degenerate configuration: no storage account *)

(** C6.  When [num_regions * storage_accounts_per_region] is zero the call
    returns a result (the division by the account count, which would raise
    [ZeroDivisionError], is never evaluated), and in every year the
    log-ingestion volume and cost and every backup amount, the per-account
    size included, are zero whatever the backup mode. *)
Theorem C6_no_accounts (inputs : Inputs) (rates : Rates) :
  (num_regions inputs * storage_accounts_per_region inputs = 0)%Z ->
  exists r,
    estimate_backend_costs inputs rates = Ok r
    /\ forall yb,
         In yb (by_year r) ->
         gb_per_account_per_month (logging yb) = 0
         /\ ingestion_gb_year (logging yb) = 0
         /\ ingestion_cost_year (logging yb) == 0
         /\ per_account_size_gb (backup yb) = 0
         /\ pi_monthly_fee_per_account (backup yb) = 0
         /\ instance_cost_year (backup yb) = 0
         /\ vault_storage_cost_year (backup yb) = 0
         /\ backup_write_ops_year (backup yb) = 0
         /\ backup_write_ops_cost_year (backup yb) = 0.
Proof.
  intros Hzero.
  destruct (by_year_spec inputs rates) as (r & Hr & _ & _ & Hyears).
  exists r. split; [exact Hr |].
  intros yb Hin.
  destruct (Hyears yb Hin) as (y & lg & bk & _ & Hlg & Hbk & Hspec).
  assert (Hle : (total_accounts_of inputs <= 0)%Z)
    by (unfold total_accounts_of; lia).
  rewrite (estimate_logging_nonpos _ _ _ Hle) in Hlg. injection Hlg as <-.
  rewrite (estimate_backup_nonpos _ _ _ Hle) in Hbk. injection Hbk as <-.
  rewrite (ys_logging _ _ _ _ _ _ _ _ Hspec).
  rewrite (ys_backup _ _ _ _ _ _ _ _ Hspec).
  cbn [gb_per_account_per_month ingestion_gb_year ingestion_cost_year fst snd
       backup_zero per_account_size_gb pi_monthly_fee_per_account
       instance_cost_year vault_storage_cost_year backup_write_ops_year
       backup_write_ops_cost_year].
  repeat split; reflexivity.
Qed.

Lemma C6_no_accounts_witness :
  (num_regions (set_accounts runner_inputs 0 2)
   * storage_accounts_per_region (set_accounts runner_inputs 0 2) = 0)%Z
  /\ exists r yb,
       estimate_backend_costs (set_accounts runner_inputs 0 2) runner_rates = Ok r
       /\ nth_error (by_year r) 4 = Some yb
       /\ ingestion_cost_year (logging yb) == 0
       /\ per_account_size_gb (backup yb) = 0
       /\ instance_cost_year (backup yb) = 0.
Proof.
  split; [reflexivity |].
  destruct (C6_no_accounts (set_accounts runner_inputs 0 2) runner_rates eq_refl)
    as (r & Hr & H).
  pose proof Hr as Hr'. vm_compute in Hr'. injection Hr' as <-.
  eexists _, _. split; [exact Hr |].
  split; [reflexivity |].
  match type of H with
  | forall yb,
      In yb (by_year
               {| by_year := [_; _; _; _; ?y4]; grand_total := _ |}) -> _ =>
      destruct (H y4) as (_ & _ & H3 & H4 & _ & H6 & _)
  end.
  { simpl. tauto. }
  repeat split; assumption.
Defined.

(** The division by zero that the guard avoids does raise. *)
Lemma division_by_no_account_raises (x : Q) :
  py_truediv x (inject_Z 0) = Raise ZeroDivisionError.
Proof. reflexivity. Qed.

(** ** Log ingestion does not depend on the account count *)

Lemma log_ingestion_cancel (total_txns bytes : Q) (total_accounts : Z) :
  (0 < total_accounts)%Z ->
  inject_Z total_accounts
  * (total_txns / 12 / inject_Z total_accounts * bytes / 1024 ^ 3) * 12
  == total_txns * bytes / 1024 ^ 3.
Proof.
  intros Hpos.
  pose proof (inject_Z_pos_nonzero _ Hpos) as Hnz.
  change (1024 ^ 3) with (1073741824 # 1).
  field. exact Hnz.
Qed.

Lemma year_log_volume (inputs : Inputs) (rates : Rates) (avg_gb : Q) (y : Z)
    (lg : Q * Q) (bk : Backup) (yb : YearBreakdown) :
  (0 < total_accounts_of inputs)%Z ->
  estimate_logging inputs (total_accounts_of inputs) (total_txns_of inputs y)
  = Ok lg ->
  year_spec inputs rates (total_accounts_of inputs) avg_gb y lg bk yb ->
  let volume := total_txns_of inputs y * log_bytes_per_txn inputs / 1024 ^ 3 in
  ingestion_gb_year (logging yb) == volume
  /\ ingestion_cost_year (logging yb)
     == volume * log_ingestion_price_per_gb rates
  /\ gb_per_account_per_month (logging yb)
     == volume / 12 / inject_Z (total_accounts_of inputs).
Proof.
  intros Hpos Hlg Hspec volume. subst volume.
  rewrite (estimate_logging_pos _ _ _ Hpos) in Hlg. injection Hlg as <-.
  rewrite (ys_logging _ _ _ _ _ _ _ _ Hspec).
  cbn [gb_per_account_per_month ingestion_gb_year ingestion_cost_year fst snd].
  pose proof (log_ingestion_cancel (total_txns_of inputs y)
                (log_bytes_per_txn inputs) _ Hpos) as Hcancel.
  split; [exact Hcancel |]. split.
  - rewrite Hcancel. reflexivity.
  - pose proof (inject_Z_pos_nonzero _ Hpos) as Hnz.
    change (1024 ^ 3) with (1073741824 # 1).
    field. exact Hnz.
Qed.

(** C9, the claim as stated fails: in binary64 the division by the account
    count and the later multiplication do not cancel exactly.  Year 2 of
    the driver's inputs has 357000 transactions of 1024 log bytes; the
    log-ingestion block returns a yearly volume of 0.34046173095703131 GB
    with 19 accounts and of 0.34046173095703125 GB, the value of
    [357000 * 1024 / 1024^3], with 6 accounts. *)
Lemma C9_binary64_cancellation_is_inexact :
  total_txns_of runner_inputs 1 == 357000
  /\ log_bytes_per_txn runner_inputs == 1024
  /\ (exists per19 vol19 per6 vol6,
        Binary64.estimate_logging 19 357000 1024
        = Binary64.Return (per19, vol19)
        /\ Binary64.estimate_logging 6 357000 1024
           = Binary64.Return (per6, vol6)
        /\ (vol6 =? 357000 * 1024 / 1073741824)%float = true
        /\ (vol19 =? 357000 * 1024 / 1073741824)%float = false
        /\ (vol6 <? vol19)%float = true).
Proof.
  split; [vm_compute; reflexivity |].
  split; [vm_compute; reflexivity |].
  eexists _, _, _, _.
  split; [vm_compute; reflexivity |].
  split; [vm_compute; reflexivity |].
  repeat split; vm_compute; reflexivity.
Qed.

(** C9, amended.  With a positive account count the code computes the
    per-account monthly volume as [total_txns / 12 / total_accounts *
    log_bytes_per_txn / 1024^3] and the yearly volume as [total_accounts]
    times that figure times 12.  In exact arithmetic the division and the
    multiplication by the account count cancel, so the yearly volume is
    [total_txns * log_bytes_per_txn / 1024^3] and, with its cost, is the
    same for any other positive account count; in binary64 this holds up
    to rounding only.  The per-account monthly figure does depend on the
    account count. *)
Theorem C9_log_ingestion_independent_of_accounts (inputs : Inputs)
    (rates : Rates) :
  (0 < num_regions inputs * storage_accounts_per_region inputs)%Z ->
  exists r,
    estimate_backend_costs inputs rates = Ok r
    /\ (forall yb,
          In yb (by_year r) ->
          let total_accounts :=
            inject_Z (num_regions inputs * storage_accounts_per_region inputs) in
          let total_txns :=
            inject_Z (3 * deployments_per_env_per_year inputs
                      + pr_runs_per_client_per_year inputs)
            * environments_global yb
            + inject_Z (deployments_per_env_per_year inputs)
              * environments_global yb in
          let volume := total_txns * log_bytes_per_txn inputs / 1024 ^ 3 in
          gb_per_account_per_month (logging yb)
          = total_txns / 12 / total_accounts * log_bytes_per_txn inputs
            / 1024 ^ 3
          /\ ingestion_gb_year (logging yb)
             = total_accounts * gb_per_account_per_month (logging yb) * 12
          /\ ingestion_gb_year (logging yb) == volume
          /\ ingestion_cost_year (logging yb)
             == volume * log_ingestion_price_per_gb rates
          /\ gb_per_account_per_month (logging yb)
             == volume / 12 / total_accounts)
    /\ (forall regions per_region : Z,
          (0 < regions * per_region)%Z ->
          exists r',
            estimate_backend_costs (set_accounts inputs regions per_region)
              rates = Ok r'
            /\ Forall2
                 (fun yb yb' =>
                    ingestion_gb_year (logging yb)
                    == ingestion_gb_year (logging yb')
                    /\ ingestion_cost_year (logging yb)
                       == ingestion_cost_year (logging yb'))
                 (by_year r) (by_year r')).
Proof.
  intros Hpos.
  destruct (by_year_positions inputs rates) as (r & Hr & HF).
  exists r. split; [exact Hr |]. split.
  - intros yb Hin. cbv zeta.
    destruct (by_year_spec inputs rates) as (r0 & Hr0 & _ & _ & Hyears).
    rewrite Hr in Hr0. injection Hr0 as <-.
    destruct (Hyears yb Hin) as (y & lg & bk & _ & Hlg & _ & Hspec).
    rewrite (ys_environments_global _ _ _ _ _ _ _ _ Hspec).
    pose proof (year_log_volume _ _ _ _ _ _ _ Hpos Hlg Hspec) as Hvol.
    unfold total_txns_of, total_reads_of, total_writes_of, reads_per_env_of,
      writes_per_env_of in Hvol.
    rewrite Z.mul_1_l in Hvol. cbv zeta in Hvol.
    split; [| split; [| exact Hvol]].
    + rewrite (estimate_logging_pos _ _ _ Hpos) in Hlg. injection Hlg as <-.
      rewrite (ys_logging _ _ _ _ _ _ _ _ Hspec).
      cbn [gb_per_account_per_month fst].
      unfold total_txns_of, total_reads_of, total_writes_of, reads_per_env_of,
        writes_per_env_of.
      rewrite Z.mul_1_l. reflexivity.
    + rewrite (estimate_logging_pos _ _ _ Hpos) in Hlg. injection Hlg as <-.
      rewrite (ys_logging _ _ _ _ _ _ _ _ Hspec).
      cbn [gb_per_account_per_month ingestion_gb_year fst snd].
      reflexivity.
  - intros regions per_region Hpos'.
    destruct (by_year_positions (set_accounts inputs regions per_region) rates)
      as (r' & Hr' & HF').
    exists r'. split; [exact Hr' |].
    refine (Forall2_same_index _ _ _ _ _ _ _ HF HF').
    intros y yb yb' (lg & bk & _ & Hlg & _ & Hspec)
      (lg' & bk' & _ & Hlg' & _ & Hspec').
    destruct (year_log_volume _ _ _ _ _ _ _ Hpos Hlg Hspec) as (H1 & H2 & _).
    destruct (year_log_volume (set_accounts inputs regions per_region) rates
                _ y lg' bk' yb' Hpos' Hlg' Hspec') as (H1' & H2' & _).
    split.
    + rewrite H1, H1'. reflexivity.
    + rewrite H2, H2'. reflexivity.
Qed.

Lemma C9_log_ingestion_independent_of_accounts_witness :
  (0 < num_regions runner_inputs * storage_accounts_per_region runner_inputs)%Z
  /\ (0 < 1 * 1)%Z
  /\ exists r r' yb yb',
       estimate_backend_costs runner_inputs runner_rates = Ok r
       /\ estimate_backend_costs (set_accounts runner_inputs 1 1) runner_rates
          = Ok r'
       /\ nth_error (by_year r) 0 = Some yb
       /\ nth_error (by_year r') 0 = Some yb'
       /\ ingestion_gb_year (logging yb) == ingestion_gb_year (logging yb')
       /\ ~ gb_per_account_per_month (logging yb)
            == gb_per_account_per_month (logging yb').
Proof.
  split; [reflexivity |]. split; [reflexivity |].
  destruct (C9_log_ingestion_independent_of_accounts runner_inputs runner_rates
              eq_refl) as (r & Hr & _ & H).
  destruct (H 1%Z 1%Z eq_refl) as (r' & Hr' & HF).
  pose proof Hr as Hr1. vm_compute in Hr1. injection Hr1 as <-.
  pose proof Hr' as Hr1. vm_compute in Hr1. injection Hr1 as <-.
  eexists _, _, _, _.
  split; [exact Hr |]. split; [exact Hr' |].
  split; [reflexivity |]. split; [reflexivity |].
  cbn [by_year] in HF. inversion HF as [| ? ? ? ? [H1 _] _]; subst.
  split; [exact H1 |].
  vm_compute. discriminate.
Defined.

(** ** Fixed infrastructure, growing environments *)

Lemma Forall2_map_eq {A B : Type} (f : A -> B) (l1 l2 : list A) :
  Forall2 (fun a b => f a = f b) l1 l2 -> map f l1 = map f l2.
Proof.
  induction 1 as [| a b l1 l2 Hab HF IH]; simpl.
  - reflexivity.
  - rewrite Hab, IH. reflexivity.
Qed.

(** C8.  In every breakdown of one call the [storage_accounts] field is
    [num_regions * storage_accounts_per_region], the same constant in every
    year, and so are the endpoint hours; [environments_global] of year [y]
    is [clients_in_year(y) * envs_per_client], and the sequence of client
    and environment counts is unchanged when the region and account counts
    are replaced by any others. *)
Theorem C8_fixed_accounts_growing_environments (inputs : Inputs)
    (rates : Rates) :
  exists r,
    estimate_backend_costs inputs rates = Ok r
    /\ (forall yb,
          In yb (by_year r) ->
          storage_accounts yb
          = (num_regions inputs * storage_accounts_per_region inputs)%Z
          /\ endpoint_hours (private_link yb)
             = inject_Z (num_regions inputs * storage_accounts_per_region inputs)
               * hours_per_month inputs * 12
          /\ _clients_in_year (num_clients inputs) (growth_rate_clients inputs)
               (year_index yb - 1) = Ok (clients yb)
          /\ environments_global yb
             = inject_Z (clients yb) * envs_per_client inputs)
    /\ (forall yb yb',
          In yb (by_year r) ->
          In yb' (by_year r) ->
          storage_accounts yb = storage_accounts yb'
          /\ endpoint_hours (private_link yb)
             = endpoint_hours (private_link yb'))
    /\ (forall regions per_region : Z,
          exists r',
            estimate_backend_costs (set_accounts inputs regions per_region)
              rates = Ok r'
            /\ map clients (by_year r') = map clients (by_year r)
            /\ map environments_global (by_year r')
               = map environments_global (by_year r)).
Proof.
  destruct (by_year_positions inputs rates) as (r & Hr & HF).
  destruct (by_year_spec inputs rates) as (r0 & Hr0 & _ & _ & Hyears).
  rewrite Hr in Hr0. injection Hr0 as <-.
  assert (Hfixed :
            forall yb,
              In yb (by_year r) ->
              storage_accounts yb = total_accounts_of inputs
              /\ endpoint_hours (private_link yb)
                 = inject_Z (total_accounts_of inputs)
                   * hours_per_month inputs * 12).
  { intros yb Hin.
    destruct (Hyears yb Hin) as (y & lg & bk & _ & _ & _ & Hspec).
    rewrite (ys_storage_accounts _ _ _ _ _ _ _ _ Hspec).
    rewrite (ys_private_link _ _ _ _ _ _ _ _ Hspec).
    split; reflexivity. }
  exists r. split; [exact Hr |]. split; [| split].
  - intros yb Hin.
    destruct (Hfixed yb Hin) as [Hsa Heh].
    split; [exact Hsa |]. split; [exact Heh |].
    destruct (Hyears yb Hin) as (y & lg & bk & Hy & _ & _ & Hspec).
    rewrite (ys_year_index _ _ _ _ _ _ _ _ Hspec).
    rewrite (ys_clients _ _ _ _ _ _ _ _ Hspec).
    rewrite (ys_environments_global _ _ _ _ _ _ _ _ Hspec).
    replace (y + 1 - 1)%Z with y by lia.
    split; [| reflexivity].
    apply clients_in_year_Ok. lia.
  - intros yb yb' Hin Hin'.
    destruct (Hfixed yb Hin) as [-> ->].
    destruct (Hfixed yb' Hin') as [-> ->].
    split; reflexivity.
  - intros regions per_region.
    destruct (by_year_positions (set_accounts inputs regions per_region) rates)
      as (r' & Hr' & HF').
    exists r'. split; [exact Hr' |].
    split; apply Forall2_map_eq.
    + refine (Forall2_same_index _ _ _ _ _ _ _ HF' HF).
      intros y yb' yb (lg' & bk' & _ & _ & _ & Hspec')
        (lg & bk & _ & _ & _ & Hspec).
      rewrite (ys_clients _ _ _ _ _ _ _ _ Hspec').
      rewrite (ys_clients _ _ _ _ _ _ _ _ Hspec). reflexivity.
    + refine (Forall2_same_index _ _ _ _ _ _ _ HF' HF).
      intros y yb' yb (lg' & bk' & _ & _ & _ & Hspec')
        (lg & bk & _ & _ & _ & Hspec).
      rewrite (ys_environments_global _ _ _ _ _ _ _ _ Hspec').
      rewrite (ys_environments_global _ _ _ _ _ _ _ _ Hspec). reflexivity.
Qed.

(** ** Reported transaction counts *)

Lemma py_int_lt (x : Q) :
  0 <= x -> (forall z : Z, ~ x == inject_Z z) -> inject_Z (py_int x) < x.
Proof.
  intros Hx Hfrac.
  destruct (proj1 (Qle_lteq _ _) (py_int_le x Hx)) as [Hlt | Heq].
  - exact Hlt.
  - exfalso. apply (Hfrac (py_int x)). symmetry. exact Heq.
Qed.

(** C10.  In every breakdown the reported [reads], [writes] and [total] are
    the [int()] truncations of [reads_per_env * total_envs],
    [writes_per_env * total_envs] and their sum, while [read_cost] and
    [write_cost] are computed from the untruncated products; a non-negative
    product is never below its reported count and is strictly above it
    whenever it is not an integer. *)
Theorem C10_reported_counts_are_truncated (inputs : Inputs) (rates : Rates) :
  exists r,
    estimate_backend_costs inputs rates = Ok r
    /\ forall yb,
         In yb (by_year r) ->
         let total_reads :=
           inject_Z (3 * deployments_per_env_per_year inputs
                     + pr_runs_per_client_per_year inputs)
           * environments_global yb in
         let total_writes :=
           inject_Z (deployments_per_env_per_year inputs)
           * environments_global yb in
         reads (transactions yb) = py_int total_reads
         /\ writes (transactions yb) = py_int total_writes
         /\ total (transactions yb) = py_int (total_reads + total_writes)
         /\ read_cost (transactions yb)
            = total_reads / 10000 * read_txn_per_10k_price rates
         /\ write_cost (transactions yb)
            = total_writes / 10000 * write_txn_per_10k_price rates
         /\ (0 <= total_reads ->
             inject_Z (reads (transactions yb)) <= total_reads
             /\ ((forall z : Z, ~ total_reads == inject_Z z) ->
                 inject_Z (reads (transactions yb)) < total_reads))
         /\ (0 <= total_writes ->
             inject_Z (writes (transactions yb)) <= total_writes
             /\ ((forall z : Z, ~ total_writes == inject_Z z) ->
                 inject_Z (writes (transactions yb)) < total_writes)).
Proof.
  destruct (transactions_of_environments inputs rates) as (r & Hr & H).
  exists r. split; [exact Hr |].
  intros yb Hin. cbv zeta.
  destruct (H yb Hin) as (H1 & H2 & H3 & H4 & H5).
  rewrite H1, H2.
  split; [reflexivity |]. split; [reflexivity |].
  split; [exact H3 |]. split; [exact H4 |]. split; [exact H5 |].
  split; intros Hnonneg.
  - split; [apply py_int_le; exact Hnonneg |].
    intros Hfrac. apply py_int_lt; assumption.
  - split; [apply py_int_le; exact Hnonneg |].
    intros Hfrac. apply py_int_lt; assumption.
Qed.

Lemma C10_reported_counts_are_truncated_witness :
  exists r yb,
    estimate_backend_costs fractional_inputs runner_rates = Ok r
    /\ by_year r = [yb]
    /\ environments_global yb == 3.5
    /\ reads (transactions yb) = 10%Z
    /\ inject_Z (reads (transactions yb)) < 3 * environments_global yb
    /\ read_cost (transactions yb) == 10.5 / 10000 * 0.004.
Proof.
  destruct (C10_reported_counts_are_truncated fractional_inputs runner_rates)
    as (r & Hr & H).
  pose proof Hr as Hr'. vm_compute in Hr'. injection Hr' as <-.
  eexists _, _. split; [exact Hr |].
  split; [reflexivity |].
  split; [reflexivity |].
  split; [reflexivity |].
  match type of H with
  | forall yb, In yb (by_year {| by_year := [?y0]; grand_total := _ |}) -> _ =>
      destruct (H y0 (or_introl eq_refl)) as (_ & _ & _ & Hcost & _ & Hlt & _)
  end.
  split.
  - apply Hlt.
    + vm_compute. discriminate.
    + intros z Hz. unfold Qeq in Hz. cbn in Hz. lia.
  - cbv zeta in Hcost. rewrite Hcost. vm_compute. reflexivity.
Defined.

(** ** Construction and invalid inputs *)

Lemma post_init_Ok (args : InputsArgs) :
  __post_init__ args
  = Ok (set_blob_vaulted_tiers args
          (match blob_vaulted_tiers args with
           | None => default_tiers
           | Some tiers => tiers
           end)).
Proof. unfold __post_init__. destruct (blob_vaulted_tiers args); reflexivity. Qed.

(** C7, the claim as stated fails: keyword arguments with a negative client
    count, a growth rate of -2 and an empty tier table are accepted by the
    constructor, and the estimate computed from them has a negative storage
    cost in year 1; a horizon of zero years is accepted too and yields an
    empty result. *)
Lemma C7_invalid_inputs_accepted :
  (num_clients invalid_args < 0)%Z
  /\ growth_rate_clients invalid_args <= -1
  /\ blob_vaulted_tiers invalid_args = Some ∅
  /\ (exists inputs r yb,
        __post_init__ invalid_args = Ok inputs
        /\ estimate_backend_costs inputs runner_rates = Ok r
        /\ nth_error (by_year r) 0 = Some yb
        /\ (clients yb < 0)%Z
        /\ storage_cost_year yb < 0)
  /\ (years zero_years_args <= 0)%Z
  /\ (exists inputs,
        __post_init__ zero_years_args = Ok inputs
        /\ estimate_backend_costs inputs runner_rates
           = Ok {| by_year := []; grand_total := 0 |}).
Proof.
  split; [reflexivity |].
  split; [discriminate |].
  split; [reflexivity |].
  split.
  { eexists _, _, _.
    split; [reflexivity |].
    split; [vm_compute; reflexivity |].
    split; [reflexivity |].
    split; reflexivity. }
  split; [discriminate |].
  eexists. split; [reflexivity |]. vm_compute. reflexivity.
Qed.

(** C7, amended.  Invalid inputs are not rejected at construction time:
    constructing an [Inputs] validates nothing and never raises, whatever
    the field values; it keeps every field as passed and only installs the
    default four-band tier table when none is given. *)
Theorem C7_no_input_validation (args : InputsArgs) :
  exists inputs,
    __post_init__ args = Ok inputs
    /\ blob_vaulted_tiers inputs
       = match blob_vaulted_tiers args with
         | None => default_tiers
         | Some tiers => tiers
         end
    /\ inputs = set_blob_vaulted_tiers args (blob_vaulted_tiers inputs).
Proof.
  eexists. split; [apply post_init_Ok |].
  split; reflexivity.
Qed.

Lemma C7_no_input_validation_witness :
  exists inputs,
    __post_init__ invalid_args = Ok inputs
    /\ num_clients inputs = (-100)%Z
    /\ growth_rate_clients inputs = -2
    /\ blob_vaulted_tiers inputs = ∅.
Proof.
  destruct (C7_no_input_validation invalid_args) as (inputs & Hi & Ht & He).
  exists inputs. split; [exact Hi |].
  rewrite He. cbn [num_clients growth_rate_clients set_blob_vaulted_tiers].
  split; [reflexivity |]. split; [reflexivity |]. exact Ht.
Defined.

(** ** Chronological order *)

Lemma year_index_positions (inputs : Inputs) (rates : Rates) (ys : list Z)
    (bys : list YearBreakdown) :
  Forall2
    (fun y yb =>
       exists lg bk,
         (0 <= y < years inputs)%Z
         /\ estimate_logging inputs (total_accounts_of inputs)
              (total_txns_of inputs y) = Ok lg
         /\ estimate_backup inputs (total_accounts_of inputs)
              (total_state_gb_of inputs (avg_gb_of inputs) y) = Ok bk
         /\ year_spec inputs rates (total_accounts_of inputs)
              (avg_gb_of inputs) y lg bk yb)
    ys bys ->
  map year_index bys = map (fun y => (y + 1)%Z) ys.
Proof.
  induction 1 as [| y yb ys bys (lg & bk & _ & _ & _ & Hspec) HF IH]; simpl.
  - reflexivity.
  - rewrite (ys_year_index _ _ _ _ _ _ _ _ Hspec), IH. reflexivity.
Qed.

(** X1.  The result holds one breakdown per year of the horizon, in
    chronological order: the year indices are 1, 2, ..., [years] (none when
    [years <= 0]). *)
Theorem by_year_chronological (inputs : Inputs) (rates : Rates) :
  exists r,
    estimate_backend_costs inputs rates = Ok r
    /\ length (by_year r) = Z.to_nat (years inputs)
    /\ map year_index (by_year r)
       = map (fun k => Z.of_nat (S k)) (seq 0 (Z.to_nat (years inputs))).
Proof.
  destruct (by_year_positions inputs rates) as (r & Hr & HF).
  exists r. split; [exact Hr |]. split.
  - rewrite <- (Forall2_length _ _ _ HF). apply py_range_length.
  - rewrite (year_index_positions _ _ _ _ HF).
    unfold py_range. rewrite map_map.
    apply map_ext. intros k. lia.
Qed.

(** * Further properties of the cost engine *)

(** ** Growth projector: rounding and monotonicity *)

Lemma growth_factor_monotone (growth_rate : Q) (k k' : Z) :
  0 <= growth_rate -> (0 <= k <= k')%Z ->
  1 <= (1 + growth_rate) ^ k /\ (1 + growth_rate) ^ k <= (1 + growth_rate) ^ k'.
Proof.
  intros Hr [Hk Hkk'].
  assert (H1 : 1 <= 1 + growth_rate) by lra.
  split.
  - apply Qpower_1_le; assumption.
  - apply Qpower_le_compat_l; assumption.
Qed.

Lemma clients_of_monotone (inputs : Inputs) (k k' : Z) :
  (0 <= num_clients inputs)%Z -> 0 <= growth_rate_clients inputs ->
  (0 <= k <= k')%Z ->
  (num_clients inputs <= clients_of inputs k <= clients_of inputs k')%Z.
Proof.
  intros Hb Hr Hk.
  destruct (growth_factor_monotone _ _ _ Hr Hk) as [H1 H2].
  assert (Hbq : 0 <= inject_Z (num_clients inputs)).
  { change 0 with (inject_Z 0). rewrite <- Zle_Qle. exact Hb. }
  unfold clients_of. split.
  - rewrite <- (Qceiling_Z (num_clients inputs)) at 1.
    apply Qceiling_resp_le. nra.
  - apply Qceiling_resp_le. nra.
Qed.

(** X2.  With a non-negative base count and a non-negative growth rate the
    projected client count never falls below the base count and never
    decreases from one year index to a later one. *)
Theorem clients_in_year_monotone (base_clients : Z) (growth_rate : Q)
    (k k' : Z) :
  (0 <= base_clients)%Z -> 0 <= growth_rate -> (0 <= k <= k')%Z ->
  exists n n',
    _clients_in_year base_clients growth_rate k = Ok n
    /\ _clients_in_year base_clients growth_rate k' = Ok n'
    /\ (base_clients <= n <= n')%Z.
Proof.
  intros Hb Hr Hk.
  destruct (growth_factor_monotone _ _ _ Hr Hk) as [H1 H2].
  assert (Hbq : 0 <= inject_Z base_clients).
  { change 0 with (inject_Z 0). rewrite <- Zle_Qle. exact Hb. }
  eexists _, _.
  split; [apply clients_in_year_Ok; lia |].
  split; [apply clients_in_year_Ok; lia |].
  split.
  - rewrite <- (Qceiling_Z base_clients) at 1.
    apply Qceiling_resp_le. nra.
  - apply Qceiling_resp_le. nra.
Qed.

Lemma clients_in_year_monotone_witness :
  (0 <= 100)%Z /\ 0 <= 0.25 /\ (0 <= 1 <= 2)%Z
  /\ exists n n',
       _clients_in_year 100 0.25 1 = Ok n
       /\ _clients_in_year 100 0.25 2 = Ok n'
       /\ (100 <= n <= n')%Z.
Proof.
  split; [lia |]. split; [discriminate |]. split; [lia |].
  apply (clients_in_year_monotone 100 0.25 1 2); [lia | discriminate | lia].
Defined.

(** ** The default tier table *)

Lemma default_tiers_lookups :
  dict_get default_tiers "<10GB" 0 = 0.10
  /\ dict_get default_tiers "10-100GB" 0 = 0.30
  /\ dict_get default_tiers "100GB-1TB" 0 = 0.60
  /\ dict_get default_tiers ">=1TB" 1 = 1.00.
Proof. repeat split; vm_compute; reflexivity. Qed.

(** The fee under the default table, band by band. *)
Lemma default_fee_cases (size base : Q) :
  let fee := _blobs_vaulted_pi_monthly_fee size base default_tiers in
  (size < 10 /\ fee = base * 0.10)
  \/ (10 <= size /\ size < 100 /\ fee = base * 0.30)
  \/ (100 <= size /\ size < 1024 /\ fee = base * 0.60)
  \/ (1024 <= size /\ fee = base * 1.00).
Proof.
  destruct default_tiers_lookups as (E1 & E2 & E3 & E4).
  cbv zeta. unfold _blobs_vaulted_pi_monthly_fee.
  rewrite E1, E2, E3, E4.
  destruct (py_lt size 10) eqn:H10.
  { left. split; [apply py_lt_true; exact H10 | reflexivity]. }
  apply py_lt_false in H10.
  destruct (py_lt size 100) eqn:H100.
  { right. left. split; [exact H10 |].
    split; [apply py_lt_true; exact H100 | reflexivity]. }
  apply py_lt_false in H100.
  destruct (py_lt size 1024) eqn:H1024.
  { right. right. left. split; [exact H100 |].
    split; [apply py_lt_true; exact H1024 | reflexivity]. }
  apply py_lt_false in H1024.
  right. right. right. split; [exact H1024 | reflexivity].
Qed.

(** X4.  Under the default tier table and a non-negative base price the
    monthly protected-instance fee lies between 0 and the base price, and a
    larger per-account size never pays a smaller fee. *)
Theorem default_tier_fee_bounded_monotone (size size' base : Q) :
  0 <= base -> size <= size' ->
  0 <= _blobs_vaulted_pi_monthly_fee size base default_tiers
  /\ _blobs_vaulted_pi_monthly_fee size base default_tiers <= base
  /\ _blobs_vaulted_pi_monthly_fee size base default_tiers
     <= _blobs_vaulted_pi_monthly_fee size' base default_tiers.
Proof.
  intros Hb Hs.
  destruct (default_fee_cases size base)
    as [[H1 ->] | [(H1 & H2 & ->) | [(H1 & H2 & ->) | [H1 ->]]]];
    destruct (default_fee_cases size' base)
      as [[H1' ->] | [(H1' & H2' & ->) | [(H1' & H2' & ->) | [H1' ->]]]];
    repeat split; lra.
Qed.

Lemma default_tier_fee_bounded_monotone_witness :
  0 <= 8.0 /\ 9.999 <= 10.0
  /\ 0 <= _blobs_vaulted_pi_monthly_fee 9.999 8.0 default_tiers
  /\ _blobs_vaulted_pi_monthly_fee 9.999 8.0 default_tiers <= 8.0
  /\ _blobs_vaulted_pi_monthly_fee 9.999 8.0 default_tiers
     <= _blobs_vaulted_pi_monthly_fee 10.0 8.0 default_tiers.
Proof.
  split; [discriminate |]. split; [discriminate |].
  apply (default_tier_fee_bounded_monotone 9.999 10.0 8.0); discriminate.
Defined.

(** ** Non-negative inputs give non-negative costs *)

(** The result of a call together with everything the loop establishes
    about it. *)
Lemma estimate_result (inputs : Inputs) (rates : Rates) :
  exists r,
    estimate_backend_costs inputs rates = Ok r
    /\ grand_total r = py_sum (map year_total_cost (by_year r))
    /\ Forall2
         (fun y yb =>
            exists lg bk,
              (0 <= y < years inputs)%Z
              /\ estimate_logging inputs (total_accounts_of inputs)
                   (total_txns_of inputs y) = Ok lg
              /\ estimate_backup inputs (total_accounts_of inputs)
                   (total_state_gb_of inputs (avg_gb_of inputs) y) = Ok bk
              /\ year_spec inputs rates (total_accounts_of inputs)
                   (avg_gb_of inputs) y lg bk yb)
         (py_range (years inputs)) (by_year r).
Proof.
  destruct (by_year_positions inputs rates) as (r & Hr & HF).
  destruct (by_year_spec inputs rates) as (r0 & Hr0 & Hsum & _).
  rewrite Hr in Hr0. injection Hr0 as <-.
  exists r. split; [exact Hr |]. split; [exact Hsum | exact HF].
Qed.

Lemma Qplus_nonneg (a b : Q) : 0 <= a -> 0 <= b -> 0 <= a + b.
Proof. intros Ha Hb. lra. Qed.

Lemma Qdiv_nonneg (a b : Q) : 0 <= a -> 0 <= b -> 0 <= a / b.
Proof.
  intros Ha Hb. unfold Qdiv.
  apply Qmult_le_0_compat; [exact Ha | apply Qinv_le_0_compat; exact Hb].
Qed.

Lemma inject_Z_nonneg (z : Z) : (0 <= z)%Z -> 0 <= inject_Z z.
Proof. intros Hz. change 0 with (inject_Z 0). rewrite <- Zle_Qle. exact Hz. Qed.

Lemma sum_Q_nonneg (xs : list Q) : Forall (fun x => 0 <= x) xs -> 0 <= sum_Q xs.
Proof.
  induction 1 as [| x xs Hx HF IH]; simpl.
  - apply Qle_refl.
  - apply Qplus_nonneg; assumption.
Qed.

Ltac qnonneg :=
  repeat match goal with
         | |- _ => assumption
         | |- 0 <= _ / _ => apply Qdiv_nonneg
         | |- 0 <= _ * _ => apply Qmult_le_0_compat
         | |- 0 <= _ + _ => apply Qplus_nonneg
         | |- 0 <= inject_Z _ => apply inject_Z_nonneg
         | |- 0 <= _ => discriminate
         end.

Lemma dict_get_nonneg (tiers : gmap string Q) (key : string) (dflt : Q) :
  (forall k v, tiers !! k = Some v -> 0 <= v) -> 0 <= dflt ->
  0 <= dict_get tiers key dflt.
Proof.
  intros Ht Hd. unfold dict_get.
  destruct (tiers !! key) as [v |] eqn:E; simpl.
  - apply (Ht key v E).
  - exact Hd.
Qed.

Lemma tier_fee_nonneg (size base : Q) (tiers : gmap string Q) :
  0 <= base -> (forall k v, tiers !! k = Some v -> 0 <= v) ->
  0 <= _blobs_vaulted_pi_monthly_fee size base tiers.
Proof.
  intros Hb Ht. unfold _blobs_vaulted_pi_monthly_fee.
  destruct (py_lt size 10); [| destruct (py_lt size 100);
                                [| destruct (py_lt size 1024)]];
    (apply Qmult_le_0_compat; [exact Hb |]);
    apply dict_get_nonneg; try exact Ht; discriminate.
Qed.

Section NonNegative.
Variables (inputs : Inputs) (rates : Rates).
Hypothesis Hin : nonneg_inputs inputs.
Hypothesis Hrates : nonneg_rates rates.

Lemma total_accounts_nonneg : (0 <= total_accounts_of inputs)%Z.
Proof.
  destruct Hin. unfold total_accounts_of.
  apply Z.mul_nonneg_nonneg; assumption.
Qed.

Lemma avg_gb_nonneg : 0 <= avg_gb_of inputs.
Proof. destruct Hin. unfold avg_gb_of. qnonneg. Qed.

Lemma total_envs_nonneg (y : Z) : 0 <= total_envs_of inputs y.
Proof.
  destruct Hin. unfold total_envs_of, clients_of.
  apply Qmult_le_0_compat; [| assumption].
  apply inject_Z_nonneg. apply clients_in_year_nonneg; assumption.
Qed.

Lemma total_reads_nonneg (y : Z) : 0 <= total_reads_of inputs y.
Proof.
  pose proof (total_envs_nonneg y). destruct Hin.
  unfold total_reads_of, reads_per_env_of.
  apply Qmult_le_0_compat; [apply inject_Z_nonneg; lia | assumption].
Qed.

Lemma total_writes_nonneg (y : Z) : 0 <= total_writes_of inputs y.
Proof.
  pose proof (total_envs_nonneg y). destruct Hin.
  unfold total_writes_of, writes_per_env_of.
  apply Qmult_le_0_compat; [apply inject_Z_nonneg; lia | assumption].
Qed.

Lemma logging_nonneg (t : Q) (lg : Q * Q) :
  0 <= t ->
  estimate_logging inputs (total_accounts_of inputs) t = Ok lg ->
  0 <= fst lg /\ 0 <= snd lg.
Proof.
  intros Ht Hlg. pose proof total_accounts_nonneg as Hta. destruct Hin.
  destruct (Z_lt_le_dec 0 (total_accounts_of inputs)) as [Hpos | Hle].
  - rewrite (estimate_logging_pos _ _ _ Hpos) in Hlg. injection Hlg as <-.
    cbn [fst snd].
    assert (H0 : 0 <= inject_Z (total_accounts_of inputs))
      by (apply inject_Z_nonneg; exact Hta).
    assert (Hg : 0 <= 1024 ^ 3) by discriminate.
    split; qnonneg.
  - rewrite (estimate_logging_nonpos _ _ _ Hle) in Hlg. injection Hlg as <-.
    split; apply Qle_refl.
Qed.

Lemma backup_nonneg (gb : Q) (bk : Backup) :
  estimate_backup inputs (total_accounts_of inputs) gb = Ok bk ->
  0 <= instance_cost_year bk
  /\ 0 <= vault_storage_cost_year bk
  /\ 0 <= backup_write_ops_cost_year bk.
Proof.
  intros Hbk. pose proof total_accounts_nonneg as Hta.
  destruct (estimate_backup_cases _ _ _ _ Hbk)
    as (_ & Hzero & _ & Hop & Hvault).
  destruct (Z_lt_le_dec 0 (total_accounts_of inputs)) as [Hpos | Hle].
  - destruct (backup_mode inputs) eqn:Hm.
    + rewrite (Hzero (or_intror eq_refl)). repeat split; apply Qle_refl.
    + destruct (Hop eq_refl) as (_ & -> & -> & _ & ->).
      repeat split; apply Qle_refl.
    + destruct (Hvault Hpos eq_refl) as (_ & -> & -> & _ & ->).
      assert (H0 : 0 <= inject_Z (total_accounts_of inputs))
        by (apply inject_Z_nonneg; exact Hta).
      pose proof (tier_fee_nonneg (per_account_size_gb bk) _ _
                    (nn_pi_price _ Hin) (nn_tiers _ Hin)) as Hfee.
      destruct Hin. repeat split; qnonneg.
  - rewrite (Hzero (or_introl Hle)). repeat split; apply Qle_refl.
Qed.

Lemma year_costs_nonneg (y : Z) (lg : Q * Q) (bk : Backup)
    (yb : YearBreakdown) :
  estimate_logging inputs (total_accounts_of inputs) (total_txns_of inputs y)
  = Ok lg ->
  estimate_backup inputs (total_accounts_of inputs)
    (total_state_gb_of inputs (avg_gb_of inputs) y) = Ok bk ->
  year_spec inputs rates (total_accounts_of inputs) (avg_gb_of inputs) y lg bk
    yb ->
  0 <= storage_cost_year yb
  /\ 0 <= read_cost (transactions yb)
  /\ 0 <= write_cost (transactions yb)
  /\ 0 <= total_txn_cost (transactions yb)
  /\ 0 <= total_pl_cost (private_link yb)
  /\ 0 <= ingestion_cost_year (logging yb)
  /\ 0 <= instance_cost_year (backup yb)
  /\ 0 <= vault_storage_cost_year (backup yb)
  /\ 0 <= backup_write_ops_cost_year (backup yb)
  /\ 0 <= year_total_cost yb.
Proof.
  intros Hlg Hbk Hspec.
  pose proof (total_envs_nonneg y) as Henv.
  pose proof (total_reads_nonneg y) as Hreads.
  pose proof (total_writes_nonneg y) as Hwrites.
  pose proof avg_gb_nonneg as Havg.
  pose proof (inject_Z_nonneg _ total_accounts_nonneg) as Hta.
  assert (Htxns : 0 <= total_txns_of inputs y)
    by (unfold total_txns_of; apply Qplus_nonneg; assumption).
  destruct (logging_nonneg _ _ Htxns Hlg) as [_ Hvol].
  destruct (backup_nonneg _ _ Hbk) as (Hb1 & Hb2 & Hb3).
  assert (Hstate : 0 <= total_state_gb_of inputs (avg_gb_of inputs) y)
    by (unfold total_state_gb_of; qnonneg).
  destruct Hrates. pose proof (nn_hours _ Hin) as Hhours.
  assert (H1 : 0 <= storage_cost_year yb).
  { rewrite (ys_storage_cost_year _ _ _ _ _ _ _ _ Hspec). qnonneg. }
  assert (H2 : 0 <= read_cost (transactions yb)
               /\ 0 <= write_cost (transactions yb)
               /\ 0 <= total_txn_cost (transactions yb)).
  { rewrite (ys_transactions _ _ _ _ _ _ _ _ Hspec).
    cbn [read_cost write_cost total_txn_cost]. repeat split; qnonneg. }
  assert (H3 : 0 <= total_pl_cost (private_link yb)).
  { rewrite (ys_private_link _ _ _ _ _ _ _ _ Hspec).
    cbn [total_pl_cost]. qnonneg. }
  assert (H4 : 0 <= ingestion_cost_year (logging yb)).
  { rewrite (ys_logging _ _ _ _ _ _ _ _ Hspec).
    cbn [ingestion_cost_year]. qnonneg. }
  destruct H2 as (H2 & H2' & H2'').
  rewrite (ys_backup _ _ _ _ _ _ _ _ Hspec).
  repeat (split; [assumption |]).
  rewrite (ys_year_total_cost _ _ _ _ _ _ _ _ Hspec).
  destruct (BackupMode_eqb (backup_mode inputs) blobs_vaulted); qnonneg.
Qed.

End NonNegative.

Lemma default_tiers_positive (key : string) (fraction : Q) :
  default_tiers !! key = Some fraction -> 0 <= fraction.
Proof.
  unfold default_tiers. intros H.
  repeat (apply lookup_insert_Some in H; destruct H as [[_ <-] | [_ H]];
          [discriminate |]).
  rewrite lookup_empty in H. discriminate H.
Qed.

Lemma runner_inputs_nonneg : nonneg_inputs runner_inputs.
Proof.
  constructor; try discriminate; try (cbn; lia).
  exact default_tiers_positive.
Qed.

Lemma runner_rates_nonneg : nonneg_rates runner_rates.
Proof. constructor; discriminate. Qed.

(** X5.  When every count, size and price of the inputs and rates is
    non-negative, the tier fractions are non-negative and the growth rate
    is at least -1, no cost is negative: in every year the storage, read,
    write, transaction, private-link, log-ingestion and backup costs and
    the year total are non-negative, and so is the grand total. *)
Theorem nonneg_inputs_give_nonneg_costs (inputs : Inputs) (rates : Rates) :
  nonneg_inputs inputs -> nonneg_rates rates ->
  exists r,
    estimate_backend_costs inputs rates = Ok r
    /\ (forall yb,
          In yb (by_year r) ->
          0 <= storage_cost_year yb
          /\ 0 <= read_cost (transactions yb)
          /\ 0 <= write_cost (transactions yb)
          /\ 0 <= total_txn_cost (transactions yb)
          /\ 0 <= total_pl_cost (private_link yb)
          /\ 0 <= ingestion_cost_year (logging yb)
          /\ 0 <= instance_cost_year (backup yb)
          /\ 0 <= vault_storage_cost_year (backup yb)
          /\ 0 <= backup_write_ops_cost_year (backup yb)
          /\ 0 <= year_total_cost yb)
    /\ 0 <= grand_total r.
Proof.
  intros Hin Hrates.
  destruct (estimate_result inputs rates) as (r & Hr & Hsum & HF).
  assert (Hall :
            forall yb,
              In yb (by_year r) ->
              0 <= storage_cost_year yb
              /\ 0 <= read_cost (transactions yb)
              /\ 0 <= write_cost (transactions yb)
              /\ 0 <= total_txn_cost (transactions yb)
              /\ 0 <= total_pl_cost (private_link yb)
              /\ 0 <= ingestion_cost_year (logging yb)
              /\ 0 <= instance_cost_year (backup yb)
              /\ 0 <= vault_storage_cost_year (backup yb)
              /\ 0 <= backup_write_ops_cost_year (backup yb)
              /\ 0 <= year_total_cost yb).
  { intros yb Hyb.
    destruct (Forall2_In_r _ _ _ _ HF Hyb)
      as (y & _ & lg & bk & _ & Hlg & Hbk & Hspec).
    exact (year_costs_nonneg inputs rates Hin Hrates y lg bk yb Hlg Hbk Hspec). }
  exists r. split; [exact Hr |]. split; [exact Hall |].
  rewrite Hsum, py_sum_sum_Q. apply sum_Q_nonneg.
  apply Forall_forall. intros x Hx.
  apply list_elem_of_In, in_map_iff in Hx. destruct Hx as (yb & <- & Hyb).
  apply (Hall yb Hyb).
Qed.

Lemma nonneg_inputs_give_nonneg_costs_witness :
  nonneg_inputs runner_inputs /\ nonneg_rates runner_rates
  /\ exists r,
       estimate_backend_costs runner_inputs runner_rates = Ok r
       /\ length (by_year r) = 5%nat
       /\ 0 <= grand_total r.
Proof.
  split; [exact runner_inputs_nonneg |].
  split; [exact runner_rates_nonneg |].
  destruct (nonneg_inputs_give_nonneg_costs runner_inputs runner_rates
              runner_inputs_nonneg runner_rates_nonneg) as (r & Hr & _ & Hg).
  exists r. split; [exact Hr |]. split; [| exact Hg].
  pose proof Hr as Hr'. vm_compute in Hr'. injection Hr' as <-. reflexivity.
Defined.

(** ** Years with the same client count *)

(** Two iterations that project the same client count produce breakdowns
    that differ in nothing but the year index. *)
Lemma same_clients_same_year (inputs : Inputs) (rates : Rates) (y y' : Z)
    (lg lg' : Q * Q) (bk bk' : Backup) (yb yb' : YearBreakdown) :
  clients_of inputs y = clients_of inputs y' ->
  estimate_logging inputs (total_accounts_of inputs) (total_txns_of inputs y)
  = Ok lg ->
  estimate_logging inputs (total_accounts_of inputs) (total_txns_of inputs y')
  = Ok lg' ->
  estimate_backup inputs (total_accounts_of inputs)
    (total_state_gb_of inputs (avg_gb_of inputs) y) = Ok bk ->
  estimate_backup inputs (total_accounts_of inputs)
    (total_state_gb_of inputs (avg_gb_of inputs) y') = Ok bk' ->
  year_spec inputs rates (total_accounts_of inputs) (avg_gb_of inputs) y lg bk
    yb ->
  year_spec inputs rates (total_accounts_of inputs) (avg_gb_of inputs) y' lg'
    bk' yb' ->
  clients yb = clients yb'
  /\ environments_global yb = environments_global yb'
  /\ storage_gb yb = storage_gb yb'
  /\ transactions yb = transactions yb'
  /\ private_link yb = private_link yb'
  /\ logging yb = logging yb'
  /\ backup yb = backup yb'
  /\ storage_cost_year yb = storage_cost_year yb'
  /\ year_total_cost yb = year_total_cost yb'.
Proof.
  intros Hc Hlg Hlg' Hbk Hbk' Hspec Hspec'.
  assert (Eenv : total_envs_of inputs y = total_envs_of inputs y')
    by (unfold total_envs_of; rewrite Hc; reflexivity).
  assert (Egb : total_state_gb_of inputs (avg_gb_of inputs) y
                = total_state_gb_of inputs (avg_gb_of inputs) y')
    by (unfold total_state_gb_of; rewrite Eenv; reflexivity).
  assert (Er : total_reads_of inputs y = total_reads_of inputs y')
    by (unfold total_reads_of; rewrite Eenv; reflexivity).
  assert (Ew : total_writes_of inputs y = total_writes_of inputs y')
    by (unfold total_writes_of; rewrite Eenv; reflexivity).
  assert (Et : total_txns_of inputs y = total_txns_of inputs y')
    by (unfold total_txns_of; rewrite Er, Ew; reflexivity).
  rewrite Et in Hlg. rewrite Hlg' in Hlg. injection Hlg as <-.
  rewrite Egb in Hbk. rewrite Hbk' in Hbk. injection Hbk as <-.
  rewrite (ys_year_total_cost _ _ _ _ _ _ _ _ Hspec).
  rewrite (ys_year_total_cost _ _ _ _ _ _ _ _ Hspec').
  rewrite (ys_clients _ _ _ _ _ _ _ _ Hspec).
  rewrite (ys_clients _ _ _ _ _ _ _ _ Hspec').
  rewrite (ys_environments_global _ _ _ _ _ _ _ _ Hspec).
  rewrite (ys_environments_global _ _ _ _ _ _ _ _ Hspec').
  rewrite (ys_storage_gb _ _ _ _ _ _ _ _ Hspec).
  rewrite (ys_storage_gb _ _ _ _ _ _ _ _ Hspec').
  rewrite (ys_storage_cost_year _ _ _ _ _ _ _ _ Hspec).
  rewrite (ys_storage_cost_year _ _ _ _ _ _ _ _ Hspec').
  rewrite (ys_transactions _ _ _ _ _ _ _ _ Hspec).
  rewrite (ys_transactions _ _ _ _ _ _ _ _ Hspec').
  rewrite (ys_private_link _ _ _ _ _ _ _ _ Hspec).
  rewrite (ys_private_link _ _ _ _ _ _ _ _ Hspec').
  rewrite (ys_logging _ _ _ _ _ _ _ _ Hspec).
  rewrite (ys_logging _ _ _ _ _ _ _ _ Hspec').
  rewrite (ys_backup _ _ _ _ _ _ _ _ Hspec).
  rewrite (ys_backup _ _ _ _ _ _ _ _ Hspec').
  rewrite Hc, Eenv, Egb, Er, Ew, Et.
  repeat split; reflexivity.
Qed.

Lemma clients_of_zero_growth (inputs : Inputs) (y : Z) :
  growth_rate_clients inputs == 0 ->
  clients_of inputs y = num_clients inputs.
Proof.
  intros Hg. unfold clients_of.
  rewrite <- (Qceiling_Z (num_clients inputs)) at 2.
  apply Qceiling_comp.
  assert (H1 : 1 + growth_rate_clients inputs == 1) by (rewrite Hg; reflexivity).
  rewrite H1, Qpower_1. ring.
Qed.

Lemma sum_Q_constant (xs : list Q) (c : Q) :
  Forall (fun x => x = c) xs ->
  sum_Q xs == inject_Z (Z.of_nat (length xs)) * c.
Proof.
  induction 1 as [| x xs -> HF IH].
  - simpl. ring.
  - cbn [sum_Q length]. rewrite IH, Nat2Z.inj_succ.
    unfold Z.succ. rewrite inject_Z_plus. ring.
Qed.

(** X6.  With a growth rate of zero the projection is flat: every year has
    [num_clients] clients, any two years of the result agree on every
    amount (they differ only in the year index), and the grand total is
    [years] times the total of any one year. *)
Theorem zero_growth_is_flat (inputs : Inputs) (rates : Rates) :
  growth_rate_clients inputs == 0 ->
  exists r,
    estimate_backend_costs inputs rates = Ok r
    /\ (forall yb, In yb (by_year r) -> clients yb = num_clients inputs)
    /\ (forall yb yb',
          In yb (by_year r) ->
          In yb' (by_year r) ->
          environments_global yb = environments_global yb'
          /\ transactions yb = transactions yb'
          /\ private_link yb = private_link yb'
          /\ logging yb = logging yb'
          /\ backup yb = backup yb'
          /\ storage_cost_year yb = storage_cost_year yb'
          /\ year_total_cost yb = year_total_cost yb')
    /\ (forall yb,
          In yb (by_year r) ->
          grand_total r == inject_Z (years inputs) * year_total_cost yb).
Proof.
  intros Hg.
  destruct (estimate_result inputs rates) as (r & Hr & Hsum & HF).
  assert (Hsame :
            forall yb yb',
              In yb (by_year r) ->
              In yb' (by_year r) ->
              environments_global yb = environments_global yb'
              /\ transactions yb = transactions yb'
              /\ private_link yb = private_link yb'
              /\ logging yb = logging yb'
              /\ backup yb = backup yb'
              /\ storage_cost_year yb = storage_cost_year yb'
              /\ year_total_cost yb = year_total_cost yb').
  { intros yb yb' Hyb Hyb'.
    destruct (Forall2_In_r _ _ _ _ HF Hyb)
      as (y & _ & lg & bk & _ & Hlg & Hbk & Hspec).
    destruct (Forall2_In_r _ _ _ _ HF Hyb')
      as (y' & _ & lg' & bk' & _ & Hlg' & Hbk' & Hspec').
    assert (Hc : clients_of inputs y = clients_of inputs y')
      by (rewrite !clients_of_zero_growth by exact Hg; reflexivity).
    destruct (same_clients_same_year _ _ _ _ _ _ _ _ _ _
                Hc Hlg Hlg' Hbk Hbk' Hspec Hspec')
      as (_ & H2 & _ & H4 & H5 & H6 & H7 & H8 & H9).
    repeat split; assumption. }
  exists r. split; [exact Hr |]. split; [| split; [exact Hsame |]].
  - intros yb Hyb.
    destruct (Forall2_In_r _ _ _ _ HF Hyb)
      as (y & _ & lg & bk & _ & _ & _ & Hspec).
    rewrite (ys_clients _ _ _ _ _ _ _ _ Hspec).
    apply clients_of_zero_growth. exact Hg.
  - intros yb Hyb.
    rewrite Hsum, py_sum_sum_Q.
    rewrite (sum_Q_constant _ (year_total_cost yb)).
    + rewrite length_map, <- (Forall2_length _ _ _ HF), py_range_length.
      destruct (Forall2_In_r _ _ _ _ HF Hyb) as (y & _ & _ & _ & Hy & _).
      rewrite Z2Nat.id by lia. reflexivity.
    + apply Forall_forall. intros x Hx.
      apply list_elem_of_In, in_map_iff in Hx.
      destruct Hx as (yb' & <- & Hyb').
      apply (Hsame yb' yb Hyb' Hyb).
Qed.

Lemma zero_growth_is_flat_witness :
  growth_rate_clients (set_years fractional_inputs 3) == 0
  /\ exists r,
       estimate_backend_costs (set_years fractional_inputs 3) runner_rates
       = Ok r
       /\ length (by_year r) = 3%nat
       /\ forall yb, In yb (by_year r) -> clients yb = 1%Z.
Proof.
  split; [reflexivity |].
  destruct (zero_growth_is_flat (set_years fractional_inputs 3) runner_rates
              ltac:(reflexivity)) as (r & Hr & Hc & _).
  exists r. split; [exact Hr |]. split; [| exact Hc].
  pose proof Hr as Hr'. vm_compute in Hr'. injection Hr' as <-. reflexivity.
Defined.

(** ** The backup mode only changes the backup terms *)

(** Breakdowns of the same year under two backup modes agree on everything
    outside the [backup] dictionary and the year total. *)
Lemma mode_independent_fields (inputs : Inputs) (rates : Rates)
    (m m' : BackupMode) (y : Z) (lg lg' : Q * Q) (bk bk' : Backup)
    (yb yb' : YearBreakdown) :
  estimate_logging (set_backup_mode inputs m)
    (total_accounts_of (set_backup_mode inputs m))
    (total_txns_of (set_backup_mode inputs m) y) = Ok lg ->
  estimate_logging (set_backup_mode inputs m')
    (total_accounts_of (set_backup_mode inputs m'))
    (total_txns_of (set_backup_mode inputs m') y) = Ok lg' ->
  year_spec (set_backup_mode inputs m) rates
    (total_accounts_of (set_backup_mode inputs m))
    (avg_gb_of (set_backup_mode inputs m)) y lg bk yb ->
  year_spec (set_backup_mode inputs m') rates
    (total_accounts_of (set_backup_mode inputs m'))
    (avg_gb_of (set_backup_mode inputs m')) y lg' bk' yb' ->
  year_index yb = year_index yb'
  /\ clients yb = clients yb'
  /\ environments_global yb = environments_global yb'
  /\ storage_accounts yb = storage_accounts yb'
  /\ transactions yb = transactions yb'
  /\ private_link yb = private_link yb'
  /\ logging yb = logging yb'
  /\ storage_cost_year yb = storage_cost_year yb'.
Proof.
  intros Hlg Hlg' Hspec Hspec'.
  change (estimate_logging inputs (total_accounts_of inputs)
            (total_txns_of inputs y) = Ok lg) in Hlg.
  change (estimate_logging inputs (total_accounts_of inputs)
            (total_txns_of inputs y) = Ok lg') in Hlg'.
  rewrite Hlg in Hlg'. injection Hlg' as <-.
  rewrite (ys_year_index _ _ _ _ _ _ _ _ Hspec).
  rewrite (ys_year_index _ _ _ _ _ _ _ _ Hspec').
  rewrite (ys_clients _ _ _ _ _ _ _ _ Hspec).
  rewrite (ys_clients _ _ _ _ _ _ _ _ Hspec').
  rewrite (ys_environments_global _ _ _ _ _ _ _ _ Hspec).
  rewrite (ys_environments_global _ _ _ _ _ _ _ _ Hspec').
  rewrite (ys_storage_accounts _ _ _ _ _ _ _ _ Hspec).
  rewrite (ys_storage_accounts _ _ _ _ _ _ _ _ Hspec').
  rewrite (ys_storage_cost_year _ _ _ _ _ _ _ _ Hspec).
  rewrite (ys_storage_cost_year _ _ _ _ _ _ _ _ Hspec').
  rewrite (ys_transactions _ _ _ _ _ _ _ _ Hspec).
  rewrite (ys_transactions _ _ _ _ _ _ _ _ Hspec').
  rewrite (ys_private_link _ _ _ _ _ _ _ _ Hspec).
  rewrite (ys_private_link _ _ _ _ _ _ _ _ Hspec').
  rewrite (ys_logging _ _ _ _ _ _ _ _ Hspec).
  rewrite (ys_logging _ _ _ _ _ _ _ _ Hspec').
  repeat split; reflexivity.
Qed.

(** X7.  Backup modes [none] and [blobs_operational] cost the same: run on
    the same inputs they give the same year totals, year by year, and the
    same grand total. *)
Theorem none_and_operational_cost_the_same (inputs : Inputs) (rates : Rates) :
  exists r_none r_op,
    estimate_backend_costs (set_backup_mode inputs none) rates = Ok r_none
    /\ estimate_backend_costs (set_backup_mode inputs blobs_operational) rates
       = Ok r_op
    /\ map year_total_cost (by_year r_none) = map year_total_cost (by_year r_op)
    /\ grand_total r_none = grand_total r_op.
Proof.
  destruct (estimate_result (set_backup_mode inputs none) rates)
    as (r & Hr & Hsum & HF).
  destruct (estimate_result (set_backup_mode inputs blobs_operational) rates)
    as (r' & Hr' & Hsum' & HF').
  exists r, r'. split; [exact Hr |]. split; [exact Hr' |].
  assert (Hmap : map year_total_cost (by_year r)
                 = map year_total_cost (by_year r')).
  { apply Forall2_map_eq.
    refine (Forall2_same_index _ _ _ _ _ _ _ HF HF').
    intros y yb yb' (lg & bk & _ & Hlg & _ & Hspec)
      (lg' & bk' & _ & Hlg' & _ & Hspec').
    destruct (mode_independent_fields _ _ _ _ _ _ _ _ _ _ _
                Hlg Hlg' Hspec Hspec')
      as (_ & _ & _ & _ & Ht & Hp & Hl & Hs).
    rewrite (ys_year_total_cost _ _ _ _ _ _ _ _ Hspec).
    rewrite (ys_year_total_cost _ _ _ _ _ _ _ _ Hspec').
    cbn [backup_mode set_backup_mode BackupMode_eqb].
    rewrite Ht, Hp, Hl, Hs. reflexivity. }
  split; [exact Hmap |].
  rewrite Hsum, Hsum', Hmap. reflexivity.
Qed.

(** X8.  Under [blobs_vaulted] each year total is the [blobs_operational]
    year total of the same inputs plus that year's instance, vault-storage
    and write-ops costs; storage, transaction, private-link and logging
    figures are the same in both modes. *)
Theorem vaulted_adds_the_backup_costs (inputs : Inputs) (rates : Rates) :
  exists r_vaulted r_op,
    estimate_backend_costs (set_backup_mode inputs blobs_vaulted) rates
    = Ok r_vaulted
    /\ estimate_backend_costs (set_backup_mode inputs blobs_operational) rates
       = Ok r_op
    /\ Forall2
         (fun ybv ybo =>
            year_index ybv = year_index ybo
            /\ year_total_cost ybv
               = year_total_cost ybo
                 + (instance_cost_year (backup ybv)
                    + vault_storage_cost_year (backup ybv)
                    + backup_write_ops_cost_year (backup ybv))
            /\ storage_cost_year ybv = storage_cost_year ybo
            /\ transactions ybv = transactions ybo
            /\ private_link ybv = private_link ybo
            /\ logging ybv = logging ybo)
         (by_year r_vaulted) (by_year r_op).
Proof.
  destruct (estimate_result (set_backup_mode inputs blobs_vaulted) rates)
    as (r & Hr & _ & HF).
  destruct (estimate_result (set_backup_mode inputs blobs_operational) rates)
    as (r' & Hr' & _ & HF').
  exists r, r'. split; [exact Hr |]. split; [exact Hr' |].
  refine (Forall2_same_index _ _ _ _ _ _ _ HF HF').
  intros y yb yb' (lg & bk & _ & Hlg & _ & Hspec)
    (lg' & bk' & _ & Hlg' & _ & Hspec').
  destruct (mode_independent_fields _ _ _ _ _ _ _ _ _ _ _
              Hlg Hlg' Hspec Hspec')
    as (Hi & _ & _ & _ & Ht & Hp & Hl & Hs).
  split; [exact Hi |].
  split; [| repeat split; assumption].
  rewrite (ys_year_total_cost _ _ _ _ _ _ _ _ Hspec).
  rewrite (ys_year_total_cost _ _ _ _ _ _ _ _ Hspec').
  rewrite (ys_backup _ _ _ _ _ _ _ _ Hspec).
  cbn [backup_mode set_backup_mode BackupMode_eqb].
  rewrite Ht, Hp, Hl, Hs. reflexivity.
Qed.

(** ** The reported total against the reported reads and writes *)

Lemma Qfloor_plus_bracket (a b : Q) :
  (Qfloor a + Qfloor b <= Qfloor (a + b) <= Qfloor a + Qfloor b + 1)%Z.
Proof.
  pose proof (Qfloor_le a) as Ha. pose proof (Qfloor_le b) as Hb.
  pose proof (Qlt_floor a) as Ha'. pose proof (Qlt_floor b) as Hb'.
  pose proof (Qfloor_le (a + b)) as Hab.
  rewrite inject_Z_plus in Ha', Hb'.
  split.
  - rewrite <- (Qfloor_Z (Qfloor a + Qfloor b)).
    apply Qfloor_resp_le. rewrite inject_Z_plus. lra.
  - assert (H : (Qfloor (a + b) < Qfloor a + Qfloor b + 2)%Z).
    { rewrite Zlt_Qlt. rewrite !inject_Z_plus.
      change (inject_Z 2) with 2. change (inject_Z 1) with 1 in Ha', Hb'. lra. }
    lia.
Qed.

(** X9.  With non-negative deployment and PR-run rates, in every year with
    a non-negative environment count the reported [total] is the sum of
    the reported [reads] and [writes] or exactly one more: the three counts
    are truncated separately. *)
Theorem reported_total_brackets_reads_and_writes (inputs : Inputs)
    (rates : Rates) :
  (0 <= deployments_per_env_per_year inputs)%Z ->
  (0 <= pr_runs_per_client_per_year inputs)%Z ->
  exists r,
    estimate_backend_costs inputs rates = Ok r
    /\ forall yb,
         In yb (by_year r) ->
         0 <= environments_global yb ->
         (reads (transactions yb) + writes (transactions yb)
          <= total (transactions yb)
          <= reads (transactions yb) + writes (transactions yb) + 1)%Z.
Proof.
  intros Hd Hp.
  destruct (transactions_of_environments inputs rates) as (r & Hr & H).
  exists r. split; [exact Hr |].
  intros yb Hyb Henv.
  destruct (H yb Hyb) as (H1 & H2 & H3 & _).
  cbv zeta in H1, H2, H3. rewrite H1, H2, H3.
  assert (Hr0 : 0 <= inject_Z (3 * deployments_per_env_per_year inputs
                               + pr_runs_per_client_per_year inputs)
                     * environments_global yb).
  { apply Qmult_le_0_compat; [apply inject_Z_nonneg; lia | exact Henv]. }
  assert (Hw0 : 0 <= inject_Z (deployments_per_env_per_year inputs)
                     * environments_global yb).
  { apply Qmult_le_0_compat; [apply inject_Z_nonneg; lia | exact Henv]. }
  rewrite !py_int_nonneg; [apply Qfloor_plus_bracket | | exact Hw0 | exact Hr0].
  apply Qplus_nonneg; assumption.
Qed.

Lemma reported_total_brackets_reads_and_writes_witness :
  (0 <= deployments_per_env_per_year fractional_inputs)%Z
  /\ (0 <= pr_runs_per_client_per_year fractional_inputs)%Z
  /\ exists r yb,
       estimate_backend_costs fractional_inputs runner_rates = Ok r
       /\ by_year r = [yb]
       /\ 0 <= environments_global yb
       /\ reads (transactions yb) = 10%Z
       /\ writes (transactions yb) = 3%Z
       /\ total (transactions yb) = 14%Z
       /\ (reads (transactions yb) + writes (transactions yb)
           <= total (transactions yb)
           <= reads (transactions yb) + writes (transactions yb) + 1)%Z.
Proof.
  split; [discriminate |]. split; [discriminate |].
  destruct (reported_total_brackets_reads_and_writes fractional_inputs
              runner_rates ltac:(discriminate) ltac:(discriminate))
    as (r & Hr & H).
  pose proof Hr as Hr'. vm_compute in Hr'. injection Hr' as <-.
  eexists _, _. split; [exact Hr |].
  split; [reflexivity |].
  split; [discriminate |].
  split; [reflexivity |]. split; [reflexivity |]. split; [reflexivity |].
  match type of H with
  | forall yb, In yb (by_year {| by_year := [?y0]; grand_total := _ |}) -> _ =>
      apply (H y0 (or_introl eq_refl))
  end.
  discriminate.
Defined.

(** ** Years are independent of the horizon *)

Lemma py_range_prefix (n m : Z) :
  (n <= m)%Z -> py_range n = firstn (Z.to_nat n) (py_range m).
Proof.
  intros Hnm. unfold py_range.
  rewrite firstn_map, take_seq.
  replace (Z.to_nat n `min` Z.to_nat m)%nat with (Z.to_nat n) by lia.
  reflexivity.
Qed.

Lemma Forall2_functional {A B : Type} (P : A -> B -> Prop) (l : list A)
    (l1 l2 : list B) :
  (forall a b b', P a b -> P a b' -> b = b') ->
  Forall2 P l l1 -> Forall2 P l l2 -> l1 = l2.
Proof.
  intros Hfun H1 H2.
  rewrite <- (map_id l1), <- (map_id l2).
  apply Forall2_map_eq.
  exact (Forall2_same_index P P _ l l1 l2 Hfun H1 H2).
Qed.

(** X10.  The years do not depend on the horizon: estimating the same
    inputs over a shorter horizon [n <= years] returns exactly the first
    [n] breakdowns of the longer estimate. *)
Theorem shorter_horizon_is_a_prefix (inputs : Inputs) (rates : Rates) (n : Z) :
  (n <= years inputs)%Z ->
  exists r r',
    estimate_backend_costs inputs rates = Ok r
    /\ estimate_backend_costs (set_years inputs n) rates = Ok r'
    /\ by_year r' = firstn (Z.to_nat n) (by_year r).
Proof.
  intros Hn.
  destruct (estimate_backend_costs_spec inputs rates) as (bys & Hr & HF).
  destruct (estimate_backend_costs_spec (set_years inputs n) rates)
    as (bys' & Hr' & HF').
  eexists _, _. split; [exact Hr |]. split; [exact Hr' |].
  cbn [by_year].
  change (Forall2
            (fun y yb =>
               estimate_year inputs rates (total_accounts_of inputs)
                 (avg_gb_of inputs) y = Ok yb)
            (py_range n) bys') in HF'.
  rewrite (py_range_prefix n (years inputs) Hn) in HF'.
  apply (Forall2_take _ _ _ (Z.to_nat n)) in HF.
  refine (Forall2_functional _ _ _ _ _ HF' HF).
  intros y yb yb' H1 H2. rewrite H1 in H2. injection H2 as <-. reflexivity.
Qed.

Lemma shorter_horizon_is_a_prefix_witness :
  (2 <= years runner_inputs)%Z
  /\ exists r r',
       estimate_backend_costs runner_inputs runner_rates = Ok r
       /\ estimate_backend_costs (set_years runner_inputs 2) runner_rates = Ok r'
       /\ length (by_year r) = 5%nat
       /\ length (by_year r') = 2%nat
       /\ by_year r' = firstn 2 (by_year r).
Proof.
  split; [discriminate |].
  destruct (shorter_horizon_is_a_prefix runner_inputs runner_rates 2
              ltac:(discriminate)) as (r & r' & Hr & Hr' & Hp).
  exists r, r'. split; [exact Hr |]. split; [exact Hr' |].
  assert (H5 : length (by_year r) = 5%nat).
  { pose proof Hr as H. vm_compute in H. injection H as <-. reflexivity. }
  split; [exact H5 |]. split; [| exact Hp].
  rewrite Hp. rewrite firstn_length_le; [reflexivity |]. rewrite H5. lia.
Defined.

(** ** A breakdown is consistent with itself *)

(** X11.  The figures reported in one breakdown agree with each other: the
    transaction and private-link totals are the sums of their reported
    parts, each cost is its reported quantity times the unit price, the
    yearly log volume is the per-account monthly volume times the reported
    account count times 12, and the backup instance and write-ops costs
    follow from the reported monthly fee and write count. *)
Theorem breakdown_is_internally_consistent (inputs : Inputs) (rates : Rates) :
  exists r,
    estimate_backend_costs inputs rates = Ok r
    /\ forall yb,
         In yb (by_year r) ->
         let accounts := inject_Z (storage_accounts yb) in
         total_txn_cost (transactions yb)
         = read_cost (transactions yb) + write_cost (transactions yb)
         /\ total_pl_cost (private_link yb)
            = endpoint_hour_cost (private_link yb) + data_cost (private_link yb)
         /\ endpoint_hours (private_link yb)
            = accounts * hours_per_month inputs * 12
         /\ endpoint_hour_cost (private_link yb)
            = endpoint_hours (private_link yb)
              * private_endpoint_hour_price rates
         /\ data_cost (private_link yb)
            = data_processed_gb (private_link yb)
              * private_link_data_price_per_gb rates
         /\ ingestion_cost_year (logging yb)
            = ingestion_gb_year (logging yb) * log_ingestion_price_per_gb rates
         /\ ingestion_gb_year (logging yb)
            == accounts * gb_per_account_per_month (logging yb) * 12
         /\ mode (backup yb) = backup_mode inputs
         /\ instance_cost_year (backup yb)
            == pi_monthly_fee_per_account (backup yb) * accounts * 12
         /\ backup_write_ops_cost_year (backup yb)
            == backup_write_ops_year (backup yb) / 10000
               * blob_vaulted_write_per_10k_price inputs.
Proof.
  destruct (estimate_result inputs rates) as (r & Hr & _ & HF).
  exists r. split; [exact Hr |].
  intros yb Hyb. cbv zeta.
  destruct (Forall2_In_r _ _ _ _ HF Hyb)
    as (y & _ & lg & bk & _ & Hlg & Hbk & Hspec).
  rewrite (ys_transactions _ _ _ _ _ _ _ _ Hspec).
  rewrite (ys_private_link _ _ _ _ _ _ _ _ Hspec).
  rewrite (ys_logging _ _ _ _ _ _ _ _ Hspec).
  rewrite (ys_backup _ _ _ _ _ _ _ _ Hspec).
  rewrite (ys_storage_accounts _ _ _ _ _ _ _ _ Hspec).
  cbn [total_txn_cost read_cost write_cost total_pl_cost endpoint_hour_cost
       data_cost endpoint_hours data_processed_gb ingestion_cost_year
       ingestion_gb_year gb_per_account_per_month].
  do 6 (split; [reflexivity |]).
  split.
  { destruct (Z_lt_le_dec 0 (total_accounts_of inputs)) as [Hpos | Hle].
    - rewrite (estimate_logging_pos _ _ _ Hpos) in Hlg. injection Hlg as <-.
      reflexivity.
    - rewrite (estimate_logging_nonpos _ _ _ Hle) in Hlg. injection Hlg as <-.
      cbn [fst snd]. ring. }
  destruct (estimate_backup_cases _ _ _ _ Hbk)
    as (Hmode & Hzero & _ & Hop & Hvault).
  split; [exact Hmode |].
  destruct (Z_lt_le_dec 0 (total_accounts_of inputs)) as [Hpos | Hle].
  - destruct (backup_mode inputs) eqn:Hm.
    + rewrite (Hzero (or_intror eq_refl)).
      cbn [backup_zero instance_cost_year pi_monthly_fee_per_account
           backup_write_ops_cost_year backup_write_ops_year].
      split; unfold Qdiv; ring.
    + destruct (Hop eq_refl) as (-> & -> & _ & -> & ->).
      split; unfold Qdiv; ring.
    + destruct (Hvault Hpos eq_refl) as (H1 & H2 & _ & H4 & H5).
      cbv zeta in H1, H2. rewrite H2, H1, H5, H4. split; reflexivity.
  - rewrite (Hzero (or_introl Hle)).
    cbn [backup_zero instance_cost_year pi_monthly_fee_per_account
         backup_write_ops_cost_year backup_write_ops_year].
    split; unfold Qdiv; ring.
Qed.

(** ** Reported GB figures are rounded to six decimals *)

Lemma round_half_even_near (x : Q) :
  Qabs (inject_Z (round_half_even x) - x) <= 1 # 2.
Proof.
  pose proof (Qfloor_le x) as Hlo. pose proof (Qlt_floor x) as Hhi.
  rewrite inject_Z_plus in Hhi. change (inject_Z 1) with 1 in Hhi.
  apply Qabs_Qle_condition. unfold round_half_even.
  destruct (x - inject_Z (Qfloor x) ?= 1 # 2) eqn:E.
  - apply Qeq_alt in E. destruct (Z.even (Qfloor x)).
    + split; lra.
    + rewrite inject_Z_plus. change (inject_Z 1) with 1. split; lra.
  - apply Qlt_alt in E. split; lra.
  - apply Qgt_alt in E. rewrite inject_Z_plus. change (inject_Z 1) with 1.
    split; lra.
Qed.

Lemma py_round_6_near (x : Q) : Qabs (py_round x 6 - x) <= 1 # 2000000.
Proof.
  pose proof (round_half_even_near (x * 10 ^ 6)) as H.
  unfold py_round. change (10 ^ 6) with 1000000 in *.
  apply Qabs_Qle_condition in H. apply Qabs_Qle_condition.
  set (z := inject_Z (round_half_even (x * 1000000))) in *.
  clearbody z. destruct H as [H1 H2].
  assert (E : z / 1000000 == z * (1 # 1000000))
    by (unfold Qdiv; reflexivity).
  rewrite E. split; lra.
Qed.

(** X12.  The reported [avg_state_size_gb] and [storage_gb] are the
    unrounded values used for the costs, rounded to six decimals: each lies
    within half a millionth of [avg_state_size_mb / 1024] and of
    [environments_global * avg_state_size_mb / 1024] respectively. *)
Theorem reported_gb_within_half_a_millionth (inputs : Inputs) (rates : Rates) :
  exists r,
    estimate_backend_costs inputs rates = Ok r
    /\ forall yb,
         In yb (by_year r) ->
         Qabs (avg_state_size_gb yb - avg_state_size_mb inputs / 1024)
         <= 1 # 2000000
         /\ Qabs (storage_gb yb
                  - environments_global yb * (avg_state_size_mb inputs / 1024))
            <= 1 # 2000000.
Proof.
  destruct (estimate_result inputs rates) as (r & Hr & _ & HF).
  exists r. split; [exact Hr |].
  intros yb Hyb.
  destruct (Forall2_In_r _ _ _ _ HF Hyb)
    as (y & _ & lg & bk & _ & _ & _ & Hspec).
  rewrite (ys_avg_state_size_gb _ _ _ _ _ _ _ _ Hspec).
  rewrite (ys_storage_gb _ _ _ _ _ _ _ _ Hspec).
  rewrite (ys_environments_global _ _ _ _ _ _ _ _ Hspec).
  split; apply py_round_6_near.
Qed.

(** ** The default configuration *)

(** X13.  An [Inputs] built from the seven required fields alone gets the
    default tier table and describes a single year without growth under
    [blobs_operational]: the estimate has exactly one breakdown, for year
    1, with [num_clients] clients, no backup fee, a year total equal to the
    four running costs, and a grand total equal to that year total. *)
Theorem default_configuration_is_one_flat_year (clients0 : Z) (envs size_mb : Q)
    (deployments pr_runs regions per_region : Z) (rates : Rates) :
  exists inputs r yb,
    __post_init__
      (Inputs_defaults clients0 envs size_mb deployments pr_runs regions
         per_region) = Ok inputs
    /\ blob_vaulted_tiers inputs = default_tiers
    /\ estimate_backend_costs inputs rates = Ok r
    /\ by_year r = [yb]
    /\ year_index yb = 1%Z
    /\ clients yb = clients0
    /\ environments_global yb = inject_Z clients0 * envs
    /\ mode (backup yb) = blobs_operational
    /\ instance_cost_year (backup yb) = 0
    /\ vault_storage_cost_year (backup yb) = 0
    /\ backup_write_ops_cost_year (backup yb) = 0
    /\ year_total_cost yb
       = storage_cost_year yb + total_txn_cost (transactions yb)
         + total_pl_cost (private_link yb) + ingestion_cost_year (logging yb)
    /\ grand_total r == year_total_cost yb.
Proof.
  set (inputs :=
         set_blob_vaulted_tiers
           (Inputs_defaults clients0 envs size_mb deployments pr_runs regions
              per_region) default_tiers).
  destruct (estimate_result inputs rates) as (r & Hr & Hsum & HF).
  change (py_range (years inputs)) with [0%Z] in HF.
  inversion HF as [| y yb ys bys (lg & bk & _ & _ & Hbk & Hspec) HF' Hy Hbys];
    subst.
  inversion HF'; subst.
  exists inputs, r, yb.
  split; [reflexivity |]. split; [reflexivity |]. split; [exact Hr |].
  split; [symmetry; assumption |].
  assert (Hc : clients_of inputs 0 = clients0).
  { apply (clients_of_zero_growth inputs 0). reflexivity. }
  split; [exact (ys_year_index _ _ _ _ _ _ _ _ Hspec) |].
  split; [rewrite (ys_clients _ _ _ _ _ _ _ _ Hspec); exact Hc |].
  split.
  { rewrite (ys_environments_global _ _ _ _ _ _ _ _ Hspec).
    unfold total_envs_of. rewrite Hc. reflexivity. }
  destruct (estimate_backup_cases _ _ _ _ Hbk) as (Hmode & _ & _ & Hop & _).
  destruct (Hop eq_refl) as (_ & H2 & H3 & _ & H5).
  rewrite (ys_backup _ _ _ _ _ _ _ _ Hspec).
  split; [exact Hmode |].
  split; [exact H2 |]. split; [exact H3 |]. split; [exact H5 |].
  split; [exact (ys_year_total_cost _ _ _ _ _ _ _ _ Hspec) |].
  rewrite Hsum. match goal with H : _ = by_year r |- _ => rewrite <- H end.
  unfold py_sum. cbn [map fold_left]. ring.
Qed.

(** ** The driver's summary *)

(** X14.  The [(year_index, year_total_cost)] pairs the driver prints list
    the years 1, 2, ..., [years] in order, one pair per breakdown, and
    their amounts add up to the grand total it prints. *)
Theorem runner_summary_matches_grand_total (inputs : Inputs) (rates : Rates) :
  exists r,
    estimate_backend_costs inputs rates = Ok r
    /\ length (runner_year_totals r) = length (by_year r)
    /\ map fst (runner_year_totals r)
       = map (fun k => Z.of_nat (S k)) (seq 0 (Z.to_nat (years inputs)))
    /\ sum_Q (map snd (runner_year_totals r)) == grand_total r.
Proof.
  destruct (estimate_result inputs rates) as (r & Hr & Hsum & HF).
  exists r. split; [exact Hr |].
  unfold runner_year_totals.
  split; [apply length_map |].
  rewrite !map_map. cbn [fst snd].
  split.
  - change (map (fun x => year_index x) (by_year r))
      with (map year_index (by_year r)).
    rewrite (year_index_positions _ _ _ _ HF).
    unfold py_range. rewrite map_map. apply map_ext. intros k. lia.
  - rewrite Hsum, py_sum_sum_Q. reflexivity.
Qed.

(** ** Cost per environment *)

Lemma year_total_affine (inputs : Inputs) (rates : Rates) (y : Z)
    (lg : Q * Q) (bk : Backup) (yb : YearBreakdown) :
  backup_mode inputs <> blobs_vaulted ->
  estimate_logging inputs (total_accounts_of inputs) (total_txns_of inputs y)
  = Ok lg ->
  year_spec inputs rates (total_accounts_of inputs) (avg_gb_of inputs) y lg bk
    yb ->
  year_total_cost yb
  == fixed_endpoint_cost inputs rates
     + cost_per_environment inputs rates * total_envs_of inputs y.
Proof.
  intros Hm Hlg Hspec.
  rewrite (ys_year_total_cost _ _ _ _ _ _ _ _ Hspec).
  replace (BackupMode_eqb (backup_mode inputs) blobs_vaulted) with false
    by (destruct (backup_mode inputs); [reflexivity | reflexivity | congruence]).
  rewrite (ys_storage_cost_year _ _ _ _ _ _ _ _ Hspec).
  rewrite (ys_transactions _ _ _ _ _ _ _ _ Hspec).
  rewrite (ys_private_link _ _ _ _ _ _ _ _ Hspec).
  rewrite (ys_logging _ _ _ _ _ _ _ _ Hspec).
  cbn [total_txn_cost total_pl_cost ingestion_cost_year].
  unfold fixed_endpoint_cost, cost_per_environment. cbv zeta.
  fold (total_accounts_of inputs).
  destruct (Z_lt_le_dec 0 (total_accounts_of inputs)) as [Hpos | Hle].
  - rewrite (estimate_logging_pos _ _ _ Hpos) in Hlg. injection Hlg as <-.
    cbn [fst snd]. rewrite (gtb_pos _ Hpos).
    rewrite (log_ingestion_cancel _ _ _ Hpos).
    unfold total_txns_of, total_reads_of, total_writes_of, total_state_gb_of,
      reads_per_env_of, writes_per_env_of, avg_gb_of.
    rewrite Z.mul_1_l. change (1024 ^ 3) with (1073741824 # 1). field.
  - rewrite (estimate_logging_nonpos _ _ _ Hle) in Hlg. injection Hlg as <-.
    cbn [fst snd]. rewrite (gtb_nonpos _ Hle).
    unfold total_txns_of, total_reads_of, total_writes_of, total_state_gb_of,
      reads_per_env_of, writes_per_env_of, avg_gb_of.
    rewrite Z.mul_1_l. field.
Qed.

(** X15.  When the backup mode is not [blobs_vaulted], every year total is
    the fixed yearly cost of the private endpoints plus a per-environment
    cost times that year's [environments_global]; the per-environment cost
    is the same in every year. *)
Theorem year_total_is_fixed_plus_per_environment (inputs : Inputs)
    (rates : Rates) :
  backup_mode inputs <> blobs_vaulted ->
  exists r,
    estimate_backend_costs inputs rates = Ok r
    /\ forall yb,
         In yb (by_year r) ->
         year_total_cost yb
         == fixed_endpoint_cost inputs rates
            + cost_per_environment inputs rates * environments_global yb.
Proof.
  intros Hm.
  destruct (estimate_result inputs rates) as (r & Hr & _ & HF).
  exists r. split; [exact Hr |].
  intros yb Hyb.
  destruct (Forall2_In_r _ _ _ _ HF Hyb)
    as (y & _ & lg & bk & _ & Hlg & _ & Hspec).
  rewrite (ys_environments_global _ _ _ _ _ _ _ _ Hspec).
  exact (year_total_affine _ _ _ _ _ _ Hm Hlg Hspec).
Qed.

Lemma year_total_is_fixed_plus_per_environment_witness :
  backup_mode fractional_inputs <> blobs_vaulted
  /\ exists r yb,
       estimate_backend_costs fractional_inputs runner_rates = Ok r
       /\ by_year r = [yb]
       /\ fixed_endpoint_cost fractional_inputs runner_rates == 525.6
       /\ year_total_cost yb
          == 525.6
             + cost_per_environment fractional_inputs runner_rates * 3.5.
Proof.
  split; [discriminate |].
  destruct (year_total_is_fixed_plus_per_environment fractional_inputs
              runner_rates ltac:(discriminate)) as (r & Hr & H).
  pose proof Hr as Hr'. vm_compute in Hr'. injection Hr' as <-.
  eexists _, _. split; [exact Hr |].
  split; [reflexivity |].
  split; [reflexivity |].
  match type of H with
  | forall yb, In yb (by_year {| by_year := [?y0]; grand_total := _ |}) -> _ =>
      rewrite (H y0 (or_introl eq_refl))
  end.
  reflexivity.
Defined.

(** ** Costs do not fall while the client base grows *)

Lemma cost_per_environment_nonneg (inputs : Inputs) (rates : Rates) :
  nonneg_inputs inputs -> nonneg_rates rates ->
  0 <= cost_per_environment inputs rates.
Proof.
  intros Hin Hrates. destruct Hin, Hrates.
  unfold cost_per_environment. cbv zeta.
  assert (H3 : (0 <= 3 * deployments_per_env_per_year inputs
                     + pr_runs_per_client_per_year inputs)%Z) by lia.
  assert (Hg : 0 <= 1024 ^ 3) by discriminate.
  destruct (num_regions inputs * storage_accounts_per_region inputs >? 0)%Z;
    qnonneg.
Qed.

(** X16.  With non-negative inputs and rates, a non-negative growth rate
    and a backup mode other than [blobs_vaulted], nothing shrinks over the
    horizon: a later year never has fewer clients, fewer environments or a
    smaller year total than an earlier one. *)
Theorem growth_never_lowers_the_year_total (inputs : Inputs) (rates : Rates) :
  nonneg_inputs inputs -> nonneg_rates rates ->
  0 <= growth_rate_clients inputs ->
  backup_mode inputs <> blobs_vaulted ->
  exists r,
    estimate_backend_costs inputs rates = Ok r
    /\ forall yb yb',
         In yb (by_year r) ->
         In yb' (by_year r) ->
         (year_index yb <= year_index yb')%Z ->
         (clients yb <= clients yb')%Z
         /\ environments_global yb <= environments_global yb'
         /\ year_total_cost yb <= year_total_cost yb'.
Proof.
  intros Hin Hrates Hg Hm.
  destruct (estimate_result inputs rates) as (r & Hr & _ & HF).
  exists r. split; [exact Hr |].
  intros yb yb' Hyb Hyb' Hle.
  destruct (Forall2_In_r _ _ _ _ HF Hyb)
    as (y & _ & lg & bk & Hy & Hlg & _ & Hspec).
  destruct (Forall2_In_r _ _ _ _ HF Hyb')
    as (y' & _ & lg' & bk' & Hy' & Hlg' & _ & Hspec').
  rewrite (ys_year_index _ _ _ _ _ _ _ _ Hspec) in Hle.
  rewrite (ys_year_index _ _ _ _ _ _ _ _ Hspec') in Hle.
  destruct (clients_of_monotone inputs y y' (nn_num_clients _ Hin) Hg
              ltac:(lia)) as [_ Hc].
  assert (Henv : total_envs_of inputs y <= total_envs_of inputs y').
  { unfold total_envs_of. apply Qmult_le_compat_r.
    - rewrite <- Zle_Qle. exact Hc.
    - exact (nn_envs_per_client _ Hin). }
  rewrite (ys_clients _ _ _ _ _ _ _ _ Hspec).
  rewrite (ys_clients _ _ _ _ _ _ _ _ Hspec').
  rewrite (ys_environments_global _ _ _ _ _ _ _ _ Hspec).
  rewrite (ys_environments_global _ _ _ _ _ _ _ _ Hspec').
  split; [exact Hc |]. split; [exact Henv |].
  rewrite (year_total_affine _ _ _ _ _ _ Hm Hlg Hspec).
  rewrite (year_total_affine _ _ _ _ _ _ Hm Hlg' Hspec').
  pose proof (cost_per_environment_nonneg _ _ Hin Hrates) as Hslope.
  nra.
Qed.

Lemma growth_never_lowers_the_year_total_witness :
  nonneg_inputs (set_backup_mode runner_inputs blobs_operational)
  /\ nonneg_rates runner_rates
  /\ 0 <= growth_rate_clients (set_backup_mode runner_inputs blobs_operational)
  /\ backup_mode (set_backup_mode runner_inputs blobs_operational)
     <> blobs_vaulted
  /\ exists r,
       estimate_backend_costs
         (set_backup_mode runner_inputs blobs_operational) runner_rates = Ok r
       /\ map clients (by_year r) = [100; 125; 157; 196; 245]%Z
       /\ forall yb yb',
            In yb (by_year r) ->
            In yb' (by_year r) ->
            (year_index yb <= year_index yb')%Z ->
            year_total_cost yb <= year_total_cost yb'.
Proof.
  assert (Hin : nonneg_inputs (set_backup_mode runner_inputs blobs_operational)).
  { constructor; try discriminate; try (cbn; lia).
    exact default_tiers_positive. }
  split; [exact Hin |].
  split; [exact runner_rates_nonneg |].
  split; [discriminate |]. split; [discriminate |].
  destruct (growth_never_lowers_the_year_total
              (set_backup_mode runner_inputs blobs_operational) runner_rates
              Hin runner_rates_nonneg ltac:(discriminate) ltac:(discriminate))
    as (r & Hr & H).
  exists r. split; [exact Hr |]. split.
  - pose proof Hr as Hr'. vm_compute in Hr'. injection Hr' as <-. reflexivity.
  - intros yb yb' Hyb Hyb' Hle. apply (H yb yb' Hyb Hyb' Hle).
Defined.

(** ** Vaulted instance cost under the default table *)

(** X17.  Under [blobs_vaulted] with the default tier table and a positive
    account count, the reported per-account size is the year's state GB
    divided by the account count, and the yearly instance cost is the base
    monthly price times the account count times 12, scaled by 10%, 30%,
    60% or 100% according to whether that size is below 10, below 100,
    below 1024, or at least 1024 GB. *)
Theorem vaulted_instance_cost_by_band (inputs : Inputs) (rates : Rates) :
  backup_mode inputs = blobs_vaulted ->
  blob_vaulted_tiers inputs = default_tiers ->
  (0 < num_regions inputs * storage_accounts_per_region inputs)%Z ->
  exists r,
    estimate_backend_costs inputs rates = Ok r
    /\ forall yb,
         In yb (by_year r) ->
         let size := per_account_size_gb (backup yb) in
         let full :=
           blob_vaulted_pi_price_per_month inputs
           * inject_Z (storage_accounts yb) * 12 in
         size
         = environments_global yb * (avg_state_size_mb inputs / 1024)
           / inject_Z (storage_accounts yb)
         /\ (size < 10 -> instance_cost_year (backup yb) == 0.10 * full)
         /\ (10 <= size -> size < 100 ->
             instance_cost_year (backup yb) == 0.30 * full)
         /\ (100 <= size -> size < 1024 ->
             instance_cost_year (backup yb) == 0.60 * full)
         /\ (1024 <= size -> instance_cost_year (backup yb) == full).
Proof.
  intros Hm Ht Hpos.
  destruct (estimate_result inputs rates) as (r & Hr & _ & HF).
  exists r. split; [exact Hr |].
  intros yb Hyb. cbv zeta.
  destruct (Forall2_In_r _ _ _ _ HF Hyb)
    as (y & _ & lg & bk & _ & _ & Hbk & Hspec).
  fold (total_accounts_of inputs) in Hpos.
  destruct (estimate_backup_cases _ _ _ _ Hbk) as (_ & _ & Hsize & _ & Hv).
  destruct (Hv Hpos Hm) as (_ & Hinst & _).
  cbv zeta in Hinst. rewrite Ht in Hinst.
  rewrite (ys_backup _ _ _ _ _ _ _ _ Hspec).
  rewrite (ys_storage_accounts _ _ _ _ _ _ _ _ Hspec).
  rewrite (ys_environments_global _ _ _ _ _ _ _ _ Hspec).
  split.
  { apply Hsize; [exact Hpos | rewrite Hm; discriminate]. }
  rewrite Hinst.
  destruct (default_fee_cases (per_account_size_gb bk)
              (blob_vaulted_pi_price_per_month inputs))
    as [[H1 ->] | [(H1 & H2 & ->) | [(H1 & H2 & ->) | [H1 ->]]]];
    repeat split; intros; try ring; exfalso; lra.
Qed.

Lemma vaulted_instance_cost_by_band_witness :
  backup_mode runner_inputs = blobs_vaulted
  /\ blob_vaulted_tiers runner_inputs = default_tiers
  /\ (0 < num_regions runner_inputs
          * storage_accounts_per_region runner_inputs)%Z
  /\ exists r yb,
       estimate_backend_costs runner_inputs runner_rates = Ok r
       /\ nth_error (by_year r) 4 = Some yb
       /\ per_account_size_gb (backup yb) < 10
       /\ instance_cost_year (backup yb) == 0.10 * (8 * 6 * 12).
Proof.
  split; [reflexivity |]. split; [reflexivity |]. split; [reflexivity |].
  destruct (vaulted_instance_cost_by_band runner_inputs runner_rates
              eq_refl eq_refl eq_refl) as (r & Hr & H).
  pose proof Hr as Hr'. vm_compute in Hr'. injection Hr' as <-.
  eexists _, _. split; [exact Hr |].
  split; [reflexivity |].
  split; [reflexivity |].
  match type of H with
  | forall yb,
      In yb (by_year
               {| by_year := [_; _; _; _; ?y4]; grand_total := _ |}) -> _ =>
      destruct (H y4) as (_ & Hlt & _)
  end.
  { simpl. tauto. }
  cbv zeta in Hlt. rewrite Hlt; reflexivity.
Defined.
